(** * warp_drive/training/utils/auto_scaler.py

    A shallow embedding of the auto-scaler: [ProcessWrapper],
    [best_param_search] and [auto_scaling], with the properties of the
    boundary search, of the probe closures and of the two-stage tuning run. *)

From Stdlib Require Import ZArith QArith Qabs List Lia.
From stdpp Require Import gmap strings.

Local Close Scope Q_scope.
Local Open Scope Z_scope.

(** ** Python values, exceptions and outcomes *)

(** The values the configuration holds.  A finite Python [float] is kept
    as the exact rational it stands for, an infinity and a NaN as they are.
    The rounding of a finite result is not modelled; its overflow is: an
    [OverflowError] where Python raises one, an infinity where it does not. *)
Inductive val : Type :=
| VNone
| VBool (b : bool)
| VInt (n : Z)
| VFloat (q : Q)
| VInf (negative : bool)
| VNan.

(** The exceptions of the module: those Python raises by itself on the
    operations the code performs, and whatever the trainer raises. *)
Inductive exn : Type :=
| KeyError (key : string)
| TypeError
| ZeroDivisionError
| OverflowError
| AssertionError
| TrainingError (what : string).

(** A call on a state [St] either returns or raises; the state it leaves
    behind is kept in both cases, since objects are mutated in place. *)
Inductive outcome (St A : Type) : Type :=
| Returns (a : A) (s : St)
| Raises (e : exn) (s : St).

Arguments Returns {St A} a s.
Arguments Raises {St A} e s.

Definition returns {St A} (o : outcome St A) : bool :=
  match o with
  | Returns _ _ => true
  | Raises _ _ => false
  end.

(** The state a call leaves behind. *)
Definition final {St A} (o : outcome St A) : St :=
  match o with
  | Returns _ s => s
  | Raises _ s => s
  end.

(** The value a call returns, if it returns. *)
Definition value_of {St A} (o : outcome St A) : option A :=
  match o with
  | Returns a _ => Some a
  | Raises _ _ => None
  end.

Definition M (St A : Type) : Type := St -> outcome St A.

Definition ret {St A} (a : A) : M St A := fun s => Returns a s.

Definition raise {St A} (e : exn) : M St A := fun s => Raises e s.

Definition bind {St A B} (m : M St A) (k : A -> M St B) : M St B :=
  fun s => match m s with
           | Returns a s' => k a s'
           | Raises e s' => Raises e s'
           end.

Definition lift {St A} (r : exn + A) : M St A :=
  match r with
  | inl e => raise e
  | inr a => ret a
  end.

Declare Scope py_scope.
Delimit Scope py_scope with py.
Notation "'let*' x ':=' m 'in' k" := (bind m (fun x => k))
  (at level 10, x name, m at level 100, k at level 200) : py_scope.

(** ** Arithmetic on Python values *)

Inductive num : Type :=
| NInt (n : Z)
| NFloat (q : Q)
| NInf (negative : bool)
| NNan.

(** [bool] is a subclass of [int]; [None] is not a number. *)
Definition as_num (v : val) : option num :=
  match v with
  | VNone => None
  | VBool b => Some (NInt (Z.b2z b))
  | VInt n => Some (NInt n)
  | VFloat q => Some (NFloat q)
  | VInf b => Some (NInf b)
  | VNan => Some NNan
  end.

(** The least magnitude that rounds, to nearest and ties to even, beyond
    the largest [float] [2^1024 - 2^971]: half way from it to [2^1024].
    From there on the conversion of an [int] and the quotient of two [int]s
    raise an [OverflowError], and the result of an operation on [float]s is
    an infinity. *)
Definition float_overflow : Z := 2 ^ 1024 - 2 ^ 970.

(** A [float] as the operations on [float]s take it. *)
Inductive double : Type :=
| DFinite (q : Q)
| DInf (negative : bool)
| DNan.

(** The operand of a [float] operation: [float(n)] for an [int], which
    raises when [n] is too large, the [float] itself otherwise. *)
Definition to_double (x : num) : exn + double :=
  match x with
  | NInt n =>
      if float_overflow <=? Z.abs n then inl OverflowError
      else inr (DFinite (inject_Z n))
  | NFloat q => inr (DFinite q)
  | NInf b => inr (DInf b)
  | NNan => inr DNan
  end.

Definition negative_Q (q : Q) : bool := Qnum q <? 0.

(** The [float] of the exact result [q] of an operation on two [float]s:
    beyond the range it is an infinity, and nothing is raised. *)
Definition double_of_Q (q : Q) : double :=
  if Qle_bool (inject_Z float_overflow) (Qabs q) then DInf (negative_Q q)
  else DFinite (Qred q).

Definition val_of_double (d : double) : val :=
  match d with
  | DFinite q => VFloat q
  | DInf b => VInf b
  | DNan => VNan
  end.

Definition double_is_zero (d : double) : bool :=
  match d with
  | DFinite q => Qeq_bool q (inject_Z 0)
  | DInf _ | DNan => false
  end.

Definition double_mul (a b : double) : double :=
  match a, b with
  | DNan, _ | _, DNan => DNan
  | DInf s, DInf t => DInf (xorb s t)
  | DInf s, DFinite q | DFinite q, DInf s =>
      if Qeq_bool q (inject_Z 0) then DNan else DInf (xorb s (negative_Q q))
  | DFinite p, DFinite q => double_of_Q (p * q)
  end.

(** [a / b] on [float]s, for [b] other than zero. *)
Definition double_div (a b : double) : double :=
  match a, b with
  | DNan, _ | _, DNan => DNan
  | DInf _, DInf _ => DNan
  | DInf s, DFinite q => DInf (xorb s (negative_Q q))
  | DFinite _, DInf _ => DFinite (inject_Z 0)
  | DFinite p, DFinite q => double_of_Q (p / q)
  end.

(** [a * b]: exact on two [int]s; otherwise both operands are taken to
    [float], and the product is a [float]. *)
Definition py_mul (a b : val) : exn + val :=
  match as_num a, as_num b with
  | Some (NInt x), Some (NInt y) => inr (VInt (x * y))
  | Some x, Some y =>
      match to_double x with
      | inl e => inl e
      | inr dx =>
          match to_double y with
          | inl e => inl e
          | inr dy => inr (val_of_double (double_mul dx dy))
          end
      end
  | _, _ => inl TypeError
  end.

(** [a / b]: true division.  On two [int]s the quotient is rounded once,
    and raises when it is too large for a [float]; otherwise both operands
    are taken to [float] first.  A zero divisor raises in both cases. *)
Definition py_truediv (a b : val) : exn + val :=
  match as_num a, as_num b with
  | Some (NInt x), Some (NInt y) =>
      if y =? 0 then inl ZeroDivisionError
      else if float_overflow * Z.abs y <=? Z.abs x then inl OverflowError
      else inr (VFloat (Qred (inject_Z x / inject_Z y)))
  | Some x, Some y =>
      match to_double x with
      | inl e => inl e
      | inr dx =>
          match to_double y with
          | inl e => inl e
          | inr dy =>
              if double_is_zero dy then inl ZeroDivisionError
              else inr (val_of_double (double_div dx dy))
          end
      end
  | _, _ => inl TypeError
  end.

(** The value a search result is stored as: [None] or an [int]. *)
Definition val_of_result (r : option Z) : val :=
  match r with
  | None => VNone
  | Some n => VInt n
  end.

(** ** [best_param_search] *)

Module Search.
Section Search.

Context {St : Type}.

(** [func]: called with a candidate, it returns or raises, and acts on
    the state. *)
Variable func : Z -> M St unit.

(** The probe returns up to [T] and raises above it, in every state. *)
Definition threshold (T : Z) : Prop :=
  forall c s, returns (func c s) = (c <=? T).

(** The probe raises on every candidate from [0] on, in every state. *)
Definition hopeless : Prop :=
  forall c s, 0 <= c -> returns (func c s) = false.

(** The calls made so far, oldest first, each with whether it returned. *)
Definition calls : Type := list (Z * bool).

(** [try: func(c) ... except Exception: ...] *)
Definition attempt (c : Z) (s : St) (tr : calls) : bool * St * calls :=
  match func c s with
  | Returns _ s' => (true, s', tr ++ [(c, true)])
  | Raises _ s' => (false, s', tr ++ [(c, false)])
  end.

(** The variables of the search once [high] is bound. *)
Record bracket : Type := Bracket {
  low : Z;
  high : Z;
  st : St;
  trace : calls
}.

(** [low] has been probed with success. *)
Definition verified (b : bracket) : Prop := In (low b, true) (trace b).

(** [high] has been probed and has failed. *)
Definition refuted (b : bracket) : Prop := In (high b, false) (trace b).

(** The invariant of the spec's search state. *)
Definition bracketed (b : bracket) : Prop :=
  low b < high b /\ verified b /\ refuted b.

(** Lines 74-81, entered with [success = False]:
    [while not success and low > 0: low = low // 2; func(low)].
    The result is [(success, low)] with the state and the calls. *)
Fixpoint lower (fuel : nat) (low : Z) (s : St) (tr : calls)
  : option (bool * Z * St * calls) :=
  if low >? 0 then
    match fuel with
    | O => None
    | S fuel' =>
        let low := low / 2 in
        match attempt low s tr with
        | (true, s', tr') => Some (true, low, s', tr')
        | (false, s', tr') => lower fuel' low s' tr'
        end
    end
  else Some (false, low, s, tr).

(** Lines 89-100, entered with [success = True]:
    [while success: high = 2 * low; func(high); low = high]. *)
Fixpoint raise_high (fuel : nat) (low : Z) (s : St) (tr : calls)
  : option bracket :=
  match fuel with
  | O => None
  | S fuel' =>
      let high := 2 * low in
      match attempt high s tr with
      | (true, s', tr') => raise_high fuel' high s' tr'
      | (false, s', tr') => Some (Bracket low high s' tr')
      end
  end.

(** One pass through the body of the loop at lines 104-114. *)
Definition bisect_step (b : bracket) : bracket :=
  let mid := (low b + high b) / 2 in
  match attempt mid (st b) (trace b) with
  | (true, s', tr') => Bracket mid (high b) s' tr'
  | (false, s', tr') => Bracket (low b) mid s' tr'
  end.

(** Lines 103-114: [while current_margin > margin: ...]. *)
Fixpoint bisect (fuel : nat) (margin : Z) (b : bracket) : option bracket :=
  if high b - low b >? margin then
    match fuel with
    | O => None
    | S fuel' => bisect fuel' margin (bisect_step b)
    end
  else Some b.

(** Lines 102-117: the bisection and [return low]. *)
Definition refine (fuel : nat) (margin : Z) (b : bracket)
  : option (outcome St (option Z) * calls) :=
  match bisect fuel margin b with
  | None => None
  | Some b' => Some (Returns (Some (low b')) (st b'), trace b')
  end.

(** Lines 87-117, entered with [success = True]. *)
Definition widen (fuel : nat) (margin low : Z) (s : St) (tr : calls)
  : option (outcome St (option Z) * calls) :=
  match raise_high fuel low s tr with
  | None => None
  | Some b => refine fuel margin b
  end.

(** The whole function.  [None] is a search that has not returned within
    [fuel] passes of one of its loops; the searched value is [Some v], and
    Python's bare [return] is [Returns None]. *)
Definition best_param_search (fuel : nat) (low margin : Z) (s : St)
  : option (outcome St (option Z) * calls) :=
  if negb (low >? 0) then Some (Raises AssertionError s, [])
  else if negb (margin >? 0) then Some (Raises AssertionError s, [])
  else
    match attempt low s [] with
    | (true, s', tr') => widen fuel margin low s' tr'
    | (false, s', tr') =>
        match lower fuel low s' tr' with
        | None => None
        | Some (true, low', s'', tr'') => widen fuel margin low' s'' tr''
        | Some (false, _, s'', tr'') => Some (Returns None s'', tr'')
        end
    end.

End Search.
End Search.

(** *** Probes used as examples *)

(** A probe without state that returns up to [T] and raises above it. *)
Definition threshold_probe (T : Z) : Z -> M unit unit :=
  fun c s =>
    if c <=? T then Returns tt s
    else Raises (TrainingError "out of memory") s.

(** A probe that returns at candidate 0 only. *)
Definition zero_probe : Z -> M unit unit :=
  fun c s =>
    if c =? 0 then Returns tt s
    else Raises (TrainingError "out of memory") s.

(** A probe whose state counts its calls and that returns on its second
    call only, whatever the candidate. *)
Definition second_call_probe : Z -> M nat unit :=
  fun _ n =>
    if (n =? 1)%nat then Returns tt (S n)
    else Raises (TrainingError "flaky") (S n).


(** ** [ProcessWrapper] and [auto_scaling] *)

(** The configuration: a dict of dicts, [config[section][key]].  The
    sections are taken to be distinct objects. *)
Abbreviation config := (gmap string (gmap string val)).

(** [config[k1][k2]], when both keys are there. *)
Definition lookup2 (c : config) (k1 k2 : string) : option val :=
  match c !! k1 with
  | None => None
  | Some d => d !! k2
  end.

(** How the child process ends: the target returns, the target raises an
    [Exception], or the process dies before [run] gets to send anything
    (a fault of the device or of the interpreter, a kill signal). *)
Inductive ending : Type :=
| Finished
| Threw (e : exn)
| Died.

Module ProcessWrapper.

(** [run], in the child: what it sends into the pipe. *)
Definition run (t : ending) : list (option exn) :=
  match t with
  | Finished => [None]
  | Threw e => [Some e]
  | Died => []
  end.

(** The [exception] property, in the parent: [recv] when [poll] finds a
    message, else the field [_exception] as it is. *)
Definition exception (pipe : list (option exn)) (_exception : option exn)
  : option exn :=
  match pipe with
  | msg :: _ => msg
  | [] => _exception
  end.

End ProcessWrapper.

Inductive stage : Type := StageA | StageB.

(** What a tuning run does that the claims speak about: a probe closure is
    entered with a candidate, a child process is started on a copy of the
    configuration. *)
Inductive event : Type :=
| EvProbe (g : stage) (c : Z)
| EvLaunch (snapshot : config).

(** The candidates the probe closure of stage [g] was called with, in order. *)
Fixpoint candidates (g : stage) (evs : list event) : list Z :=
  match evs with
  | [] => []
  | EvProbe StageA c :: evs' =>
      match g with StageA => c :: candidates g evs' | StageB => candidates g evs' end
  | EvProbe StageB c :: evs' =>
      match g with StageA => candidates g evs' | StageB => c :: candidates g evs' end
  | EvLaunch _ :: evs' => candidates g evs'
  end.

(** The configurations the child processes were started on, in order. *)
Fixpoint launches (evs : list event) : list config :=
  match evs with
  | [] => []
  | EvProbe _ _ :: evs' => launches evs'
  | EvLaunch c :: evs' => c :: launches evs'
  end.

(** A run of code whose loops may go on: it ends, or it is still in a
    search after [fuel] passes, or it left what is modelled here. *)
Inductive run (St A : Type) : Type :=
| Ends (o : outcome St A)
| Spins
| Unmodelled.

Arguments Ends {St A} o.
Arguments Spins {St A}.
Arguments Unmodelled {St A}.

(** How a run ended, if it has: the value returned or the exception. *)
Definition result_of {St A} (r : run St A) : option (exn + A) :=
  match r with
  | Ends (Returns a _) => Some (inr a)
  | Ends (Raises e _) => Some (inl e)
  | Spins | Unmodelled => None
  end.

(** The state it ended in, [s0] if it has not. *)
Definition state_of {St A} (r : run St A) (s0 : St) : St :=
  match r with
  | Ends o => final o
  | Spins | Unmodelled => s0
  end.

Definition R (St A : Type) : Type := St -> run St A.

Definition total {St A} (m : M St A) : R St A := fun s => Ends (m s).

Definition bindR {St A B} (m : R St A) (k : A -> R St B) : R St B :=
  fun s => match m s with
           | Ends (Returns a s') => k a s'
           | Ends (Raises e s') => Ends (Raises e s')
           | Spins => Spins
           | Unmodelled => Unmodelled
           end.

Notation "'let+' x ':=' m 'in' k" := (bindR m (fun x => k))
  (at level 10, x name, m at level 100, k at level 200) : py_scope.

(** A call of [best_param_search] from code that goes on after it. *)
Definition search {St} (fuel : nat) (low margin : Z) (func : Z -> M St unit)
  : R St (option Z) :=
  fun s => match Search.best_param_search func fuel low margin s with
           | None => Spins
           | Some (o, _) => Ends o
           end.

(** The same with [low] read from the configuration: [None > 0] is a
    [TypeError]; a search seeded with a [bool] or a [float] is not
    followed. *)
Definition search_from {St} (fuel : nat) (low : val) (margin : Z)
    (func : Z -> M St unit) : R St (option Z) :=
  match low with
  | VInt n => search fuel n margin func
  | VNone => total (raise TypeError)
  | VBool _ | VFloat _ | VInf _ | VNan => fun _ => Unmodelled
  end.

Module AutoScaler.
Section AutoScaler.

Local Open Scope py_scope.

(** Whatever the trainer acts upon besides its arguments. *)
Context {World : Type}.

(** The trainer, as it runs in a child process on the copy of the
    configuration it is spawned with. *)
Variable setup_trainer_and_train : config -> bool -> World -> ending * World.

Variable num_iters : Z.

Record state : Type := State {
  cfg : config;
  world : World;
  events : list event
}.

Definition note (ev : event) : M state unit :=
  fun s => Returns tt (State (cfg s) (world s) (events s ++ [ev])).

(** [config[k1][k2]] *)
Definition getitem (k1 k2 : string) : M state val :=
  fun s => match cfg s !! k1 with
           | None => Raises (KeyError k1) s
           | Some d =>
               match d !! k2 with
               | None => Raises (KeyError k2) s
               | Some v => Returns v s
               end
           end.

(** [config[k1][k2] = v] *)
Definition setitem (k1 k2 : string) (v : val) : M state unit :=
  fun s => match cfg s !! k1 with
           | None => Raises (KeyError k1) s
           | Some d =>
               Returns tt (State (<[k1 := <[k2 := v]> d]> (cfg s))
                                 (world s) (events s))
           end.

(** Lines 126-134. *)
Definition launch_process
    (func : config -> bool -> World -> ending * World)
    (args : config * bool) : M state unit :=
  fun s =>
    let (t, w) := func (fst args) (snd args) (world s) in
    let s' := State (cfg s) w (events s ++ [EvLaunch (fst args)]) in
    match ProcessWrapper.exception (ProcessWrapper.run t) None with
    | Some e => Raises e s'
    | None => Returns tt s'
    end.

Definition the_config : M state config := fun s => Returns (cfg s) s.

(** Lines 144-148 and 158-162. *)
Definition set_num_episodes : M state unit :=
  let* tbs := getitem "trainer" "train_batch_size" in
  let* p := lift (py_mul (VInt num_iters) tbs) in
  let* len := getitem "env" "episode_length" in
  let* q := lift (py_truediv p len) in
  setitem "trainer" "num_episodes" q.

(** Lines 136-150. *)
Definition set_num_envs_and_train (num_envs : Z) : M state unit :=
  let* _ := note (EvProbe StageA num_envs) in
  let* _ := setitem "trainer" "num_envs" (VInt num_envs) in
  let* _ := setitem "trainer" "train_batch_size" (VInt num_envs) in
  let* _ := set_num_episodes in
  let* c := the_config in
  launch_process setup_trainer_and_train (c, false).

(** Lines 152-164. *)
Definition set_batch_size_per_env_and_train (train_batch_size_per_env : Z)
  : M state unit :=
  let* _ := note (EvProbe StageB train_batch_size_per_env) in
  let* n := getitem "trainer" "num_envs" in
  let* b := lift (py_mul (VInt train_batch_size_per_env) n) in
  let* _ := setitem "trainer" "train_batch_size" b in
  let* _ := set_num_episodes in
  let* c := the_config in
  launch_process setup_trainer_and_train (c, false).

(** Lines 166-170. *)
Definition save_initial : M state (val * val) :=
  let* num_episodes := getitem "trainer" "num_episodes" in
  let* use_wandb := getitem "saving" "use_wandb" in
  let* _ := setitem "saving" "use_wandb" (VBool false) in
  ret (num_episodes, use_wandb).

(** Lines 177-180. *)
Definition stage_a (fuel : nat) : R state unit :=
  let+ num_envs := total (getitem "trainer" "num_envs") in
  let+ max_envs := search_from fuel num_envs 1 set_num_envs_and_train in
  total (setitem "trainer" "num_envs" (val_of_result max_envs)).

(** Lines 187-190. *)
Definition stage_b (fuel : nat) : R state unit :=
  let+ max_batch_size_per_env :=
    search fuel 1 1 set_batch_size_per_env_and_train in
  let+ n := total (getitem "trainer" "num_envs") in
  let+ b := total (lift (py_mul (val_of_result max_batch_size_per_env) n)) in
  total (setitem "trainer" "train_batch_size" b).

(** Lines 193-194. *)
Definition put_back (saved : val * val) : M state unit :=
  let* _ := setitem "trainer" "num_episodes" (fst saved) in
  setitem "saving" "use_wandb" (snd saved).

(** Lines 120-196.  The configuration returned is the one of the final
    state: the function hands back the object it was given. *)
Definition auto_scaling (fuel : nat) : R state unit :=
  let+ saved := total save_initial in
  let+ _ := stage_a fuel in
  let+ _ := stage_b fuel in
  total (put_back saved).

(** The configuration a call of the closure of stage A with candidate
    [c] has written when it launches the trainer: [q] is the number of
    episodes it has derived, [tr] the [trainer] section it has found. *)
Definition written_by_stage_a (c : Z) (q : val) (tr : gmap string val)
    (conf : config) : config :=
  <["trainer" := <["num_episodes" := q]>
      (<["train_batch_size" := VInt c]> (<["num_envs" := VInt c]> tr))]> conf.

(** [s'] differs from [s] inside the [trainer] section at most. *)
Definition frame (s s' : state) : Prop :=
  (is_Some (cfg s !! "trainer") -> is_Some (cfg s' !! "trainer")) /\
  (forall k, k <> "trainer" -> cfg s' !! k = cfg s !! k).

Definition framed {A} (m : M state A) : Prop :=
  forall s, frame s (final (m s)).

End AutoScaler.
End AutoScaler.

(** ** Trainers and configurations used as examples *)

(** A trainer that runs while [num_envs <= T1] and
    [train_batch_size <= T2 * num_envs], and raises beyond. *)
Definition capped_trainer (T1 T2 : Z) (c : config) (_ : bool) (w : unit)
  : ending * unit :=
  match lookup2 c "trainer" "num_envs", lookup2 c "trainer" "train_batch_size" with
  | Some (VInt n), Some (VInt b) =>
      if (n <=? T1) && (b <=? T2 * n) then (Finished, w)
      else (Threw (TrainingError "CUDA out of memory"), w)
  | _, _ => (Threw TypeError, w)
  end.

(** A trainer that raises on every configuration. *)
Definition failing_trainer (c : config) (_ : bool) (w : unit) : ending * unit :=
  (Threw (TrainingError "CUDA out of memory"), w).

(** A trainer whose process dies on every configuration. *)
Definition dying_trainer (c : config) (_ : bool) (w : unit) : ending * unit :=
  (Died, w).

Definition example_config : config :=
  {[ "trainer" := {[ "num_envs" := VInt 8;
                     "train_batch_size" := VInt 8;
                     "num_episodes" := VInt 100 ]};
     "env" := {[ "episode_length" := VInt 10 ]};
     "saving" := {[ "use_wandb" := VBool true ]} ]}.

(** The same without [trainer.train_batch_size]. *)
Definition config_without_batch_size : config :=
  {[ "trainer" := {[ "num_envs" := VInt 8;
                     "num_episodes" := VInt 100 ]};
     "env" := {[ "episode_length" := VInt 10 ]};
     "saving" := {[ "use_wandb" := VBool true ]} ]}.

(** The same without [env.episode_length]. *)
Definition config_without_episode_length : config :=
  {[ "trainer" := {[ "num_envs" := VInt 8;
                     "train_batch_size" := VInt 8;
                     "num_episodes" := VInt 100 ]};
     "env" := ∅;
     "saving" := {[ "use_wandb" := VBool true ]} ]}.

(** The same without [trainer.num_envs]. *)
Definition config_without_num_envs : config :=
  {[ "trainer" := {[ "train_batch_size" := VInt 8;
                     "num_episodes" := VInt 100 ]};
     "env" := {[ "episode_length" := VInt 10 ]};
     "saving" := {[ "use_wandb" := VBool true ]} ]}.

(** The same with [trainer.num_envs] at 0. *)
Definition config_with_zero_envs : config :=
  {[ "trainer" := {[ "num_envs" := VInt 0;
                     "train_batch_size" := VInt 8;
                     "num_episodes" := VInt 100 ]};
     "env" := {[ "episode_length" := VInt 10 ]};
     "saving" := {[ "use_wandb" := VBool true ]} ]}.

Definition start (c : config) : AutoScaler.state :=
  AutoScaler.State c tt [].

(** The run from [example_config] after lines 166-170. *)
Definition example_saved : @AutoScaler.state unit :=
  final (AutoScaler.save_initial (start example_config)).

(** The run with the trainer that always raises, when the search of stage
    A has returned, and the whole of it. *)
Definition failing_run_searched : @AutoScaler.state unit :=
  state_of (search 10 8 1 (AutoScaler.set_num_envs_and_train failing_trainer 2)
              example_saved)
           example_saved.

Definition failing_run : run (@AutoScaler.state unit) unit :=
  AutoScaler.auto_scaling failing_trainer 2 10 (start example_config).

(** The run with a trainer that has a boundary in each parameter. *)
Definition capped_run : run (@AutoScaler.state unit) unit :=
  AutoScaler.auto_scaling (capped_trainer 50 10) 2 40 (start example_config).

(** [v] is an [int], and one of at least [m]. *)
Definition at_least (v : option val) (m : Z) : bool :=
  match v with
  | Some (VInt n) => m <=? n
  | _ => false
  end.


(** ** What the further properties speak about *)

(** The configuration a call of the closure of stage B has written when
    it launches the trainer: [b] is the batch size and [q] the number of
    episodes it has derived, [tr] the [trainer] section it has found. *)
Definition written_by_stage_b (b q : val) (tr : gmap string val)
    (conf : config) : config :=
  <["trainer" := <["num_episodes" := q]> (<["train_batch_size" := b]> tr)]> conf.

(** The quotient [x / len] is defined: [len] is a number other than zero,
    and nothing overflows. *)
Definition divides (len : val) (x : Z) : Prop :=
  exists q, py_truediv (VInt x) len = inr q.

(** A state whose configuration has a [trainer] section, and [len] at
    [env.episode_length]. *)
Definition ready {World} (len : val) (s : @AutoScaler.state World) : Prop :=
  is_Some (AutoScaler.cfg s !! "trainer") /\
  lookup2 (AutoScaler.cfg s) "env" "episode_length" = Some len.

(** A call that leaves [trainer.num_envs] as it is, whether it returns or
    raises. *)
Definition keeps_num_envs {World A} (m : M (@AutoScaler.state World) A)
  : Prop :=
  forall s,
    lookup2 (AutoScaler.cfg (final (m s))) "trainer" "num_envs"
      = lookup2 (AutoScaler.cfg s) "trainer" "num_envs".

(** A trainer that finishes exactly on the configurations with
    [num_envs <= T1] and [train_batch_size <= T2 * num_envs], and raises on
    the others. *)
Definition bounded {World}
    (trainer : config -> bool -> World -> ending * World) (T1 T2 : Z) : Prop :=
  forall conf w n b,
    lookup2 conf "trainer" "num_envs" = Some (VInt n) ->
    lookup2 conf "trainer" "train_batch_size" = Some (VInt b) ->
    match fst (trainer conf false w) with
    | Finished => n <= T1 /\ b <= T2 * n
    | Threw _ => ~ (n <= T1 /\ b <= T2 * n)
    | Died => False
    end.

(** The exceptions the module raises by itself, as opposed to those of the
    trainer and of the arithmetic on floats. *)
Definition own_error (e : exn) : Prop :=
  match e with
  | KeyError _ | TypeError | AssertionError => True
  | ZeroDivisionError | OverflowError | TrainingError _ => False
  end.

(** [saving.use_wandb] is [False] in [conf]. *)
Definition wandb_off (conf : config) : Prop :=
  lookup2 conf "saving" "use_wandb" = Some (VBool false).

(** From a state with wandb off, [s'] has it off too, and has added to the
    events of [s] no launch on a configuration with wandb on. *)
Definition calm {World} (s s' : @AutoScaler.state World) : Prop :=
  wandb_off (AutoScaler.cfg s) ->
  wandb_off (AutoScaler.cfg s') /\
  exists extra,
    AutoScaler.events s' = AutoScaler.events s ++ extra /\
    Forall wandb_off (launches extra).

(** A call, or a run, that raises nothing but the module's own errors. *)
Definition raises_own {St A} (m : M St A) : Prop :=
  forall s e s', m s = Raises e s' -> own_error e.

Definition ends_own {St A} (m : R St A) : Prop :=
  forall s e s', m s = Ends (Raises e s') -> own_error e.

(** A call, or a run, that is calm from every state. *)
Definition calmly {World A} (m : M (@AutoScaler.state World) A) : Prop :=
  forall s, calm s (final (m s)).

Definition ends_calmly {World A} (m : R (@AutoScaler.state World) A) : Prop :=
  forall s o, m s = Ends o -> calm s (final o).

(** * Properties *)

Import Search.

(** ** Outcomes *)

Lemma returns_eta {St A} (o : outcome St A) a :
  value_of o = Some a -> o = Returns a (final o).
Proof. destruct o; simpl; [intros [= ->]; reflexivity|discriminate]. Qed.

Lemma run_returns_eta {St A} (r : run St A) a s0 :
  result_of r = Some (inr a) -> r = Ends (Returns a (state_of r s0)).
Proof.
  destruct r as [[]| |]; simpl; try discriminate.
  intros [= ->]. reflexivity.
Qed.

Lemma run_raises_eta {St A} (r : run St A) e s0 :
  result_of r = Some (inl e) -> r = Ends (Raises e (state_of r s0)).
Proof.
  destruct r as [[]| |]; simpl; try discriminate.
  intros [= ->]. reflexivity.
Qed.

(** ** The boundary search *)

Section SearchFacts.

Context {St : Type}.
Variable func : Z -> M St unit.

Lemma attempt_trace c s tr ok s' tr' :
  attempt func c s tr = (ok, s', tr') -> tr' = tr ++ [(c, ok)].
Proof.
  unfold attempt. destruct (func c s); intros H; inversion H; reflexivity.
Qed.

Lemma lower_S fuel l s tr :
  lower func (S fuel) l s tr =
    if l >? 0 then
      match attempt func (l / 2) s tr with
      | (true, s', tr') => Some (true, l / 2, s', tr')
      | (false, s', tr') => lower func fuel (l / 2) s' tr'
      end
    else Some (false, l, s, tr).
Proof. reflexivity. Qed.

Lemma lower_nonpositive fuel l s tr :
  l <= 0 -> lower func fuel l s tr = Some (false, l, s, tr).
Proof.
  intros Hl. destruct fuel; simpl; destruct (Z.gtb_spec l 0); (lia || reflexivity).
Qed.

Lemma midpoint_inside l h : l + 2 <= h -> l < (l + h) / 2 < h.
Proof. intros H. Z.div_mod_to_equations. lia. Qed.

(** What one pass of the bisection does to the bracket. *)
Lemma bisect_step_cases b :
  let mid := (low b + high b) / 2 in
  exists ok s',
    attempt func mid (st b) (trace b) = (ok, s', trace b ++ [(mid, ok)]) /\
    bisect_step func b =
      Bracket (if ok then mid else low b) (if ok then high b else mid)
              s' (trace b ++ [(mid, ok)]).
Proof.
  intros mid. unfold bisect_step. fold mid.
  destruct (attempt func mid (st b) (trace b)) as [[ok s'] tr'] eqn:E.
  pose proof (attempt_trace _ _ _ _ _ _ E) as ->.
  exists ok, s'. split; [reflexivity|]. destruct ok; reflexivity.
Qed.

Lemma bisect_step_gap margin b :
  0 < margin -> margin < high b - low b ->
  0 < high (bisect_step func b) - low (bisect_step func b) < high b - low b.
Proof.
  intros Hm Hgap.
  destruct (bisect_step_cases b) as (ok & s' & _ & ->).
  pose proof (midpoint_inside (low b) (high b)) as Hmid.
  destruct ok; simpl; lia.
Qed.

Lemma bisect_enough margin :
  0 < margin ->
  forall fuel b, (Z.to_nat (high b - low b) <= fuel)%nat ->
    exists b', bisect func fuel margin b = Some b' /\
               high b' - low b' <= margin.
Proof.
  intros Hm fuel. induction fuel as [|fuel IH]; intros b Hfuel; simpl.
  - destruct (Z.gtb_spec (high b - low b) margin) as [Hgt|Hle]; [lia|].
    exists b. split; [reflexivity|lia].
  - destruct (Z.gtb_spec (high b - low b) margin) as [Hgt|Hle].
    + apply IH.
      pose proof (bisect_step_gap margin b Hm ltac:(lia)). lia.
    + exists b. split; [reflexivity|lia].
Qed.

Lemma bisect_step_verified b :
  verified b -> verified (bisect_step func b).
Proof.
  unfold verified. intros H.
  destruct (bisect_step_cases b) as (ok & s' & _ & ->).
  destruct ok; simpl; apply in_or_app; [right; left; reflexivity | left; exact H].
Qed.

Lemma bisect_step_refuted b :
  refuted b -> refuted (bisect_step func b).
Proof.
  unfold refuted. intros H.
  destruct (bisect_step_cases b) as (ok & s' & _ & ->).
  destruct ok; simpl; apply in_or_app; [left; exact H | right; left; reflexivity].
Qed.

Lemma bisect_step_bracketed margin b :
  0 < margin -> margin < high b - low b ->
  bracketed b -> bracketed (bisect_step func b).
Proof.
  intros Hm Hgap (_ & Hv & Hr). split; [|split].
  - pose proof (bisect_step_gap margin b Hm Hgap). lia.
  - apply bisect_step_verified, Hv.
  - apply bisect_step_refuted, Hr.
Qed.

Lemma bisect_verified margin fuel : forall b b',
  verified b -> bisect func fuel margin b = Some b' -> verified b'.
Proof.
  induction fuel as [|fuel IH]; intros b b' Hv; simpl;
    destruct (high b - low b >? margin); try discriminate.
  - intros [= <-]. exact Hv.
  - intros H. eapply IH; [|exact H]. apply bisect_step_verified, Hv.
  - intros [= <-]. exact Hv.
Qed.

Lemma bisect_bracketed margin fuel : 0 < margin -> forall b b',
  bracketed b -> bisect func fuel margin b = Some b' -> bracketed b'.
Proof.
  intros Hm. induction fuel as [|fuel IH]; intros b b' Hb; simpl;
    destruct (Z.gtb_spec (high b - low b) margin) as [Hgt|Hle]; try discriminate.
  - intros [= <-]. exact Hb.
  - intros H. eapply IH; [|exact H].
    apply (bisect_step_bracketed margin); [exact Hm|lia|exact Hb].
  - intros [= <-]. exact Hb.
Qed.

Lemma raise_high_verified fuel : forall l s tr b,
  In (l, true) tr -> raise_high func fuel l s tr = Some b -> verified b.
Proof.
  induction fuel as [|fuel IH]; intros l s tr b Hin; simpl; [discriminate|].
  destruct (attempt func (2 * l) s tr) as [[ok s'] tr'] eqn:E.
  pose proof (attempt_trace _ _ _ _ _ _ E) as ->.
  destruct ok.
  - apply IH. apply in_or_app. right. left. reflexivity.
  - intros [= <-]. unfold verified. simpl. apply in_or_app. left. exact Hin.
Qed.

(** From a positive [low] that has succeeded, the doubling loop ends, if
    it does, in a bracket with the invariant. *)
Lemma raise_high_bracketed fuel : forall l s tr b,
  0 < l -> In (l, true) tr ->
  raise_high func fuel l s tr = Some b -> bracketed b /\ 0 < low b.
Proof.
  induction fuel as [|fuel IH]; intros l s tr b Hl Hin; simpl; [discriminate|].
  destruct (attempt func (2 * l) s tr) as [[ok s'] tr'] eqn:E.
  pose proof (attempt_trace _ _ _ _ _ _ E) as ->.
  destruct ok.
  - apply IH; [lia|]. apply in_or_app. right. left. reflexivity.
  - intros [= <-]. unfold bracketed, verified, refuted. simpl.
    repeat split; try lia; apply in_or_app; [left; exact Hin|right; left; reflexivity].
Qed.

Lemma lower_verified fuel : forall l s tr l' s' tr',
  lower func fuel l s tr = Some (true, l', s', tr') -> In (l', true) tr'.
Proof.
  induction fuel as [|fuel IH]; intros l s tr l' s' tr'; simpl;
    destruct (l >? 0); try discriminate.
  destruct (attempt func (l / 2) s tr) as [[ok s1] tr1] eqn:E.
  pose proof (attempt_trace _ _ _ _ _ _ E) as ->.
  destruct ok.
  - intros [= <- <- <-]. apply in_or_app. right. left. reflexivity.
  - apply IH.
Qed.

Lemma widen_verified fuel margin l s tr v s' tr' :
  In (l, true) tr ->
  widen func fuel margin l s tr = Some (Returns (Some v) s', tr') ->
  In (v, true) tr'.
Proof.
  unfold widen, refine. intros Hin.
  destruct (raise_high func fuel l s tr) as [b|] eqn:E; [|discriminate].
  destruct (bisect func fuel margin b) as [b'|] eqn:E'; [|discriminate].
  intros [= <- <- <-].
  eapply bisect_verified; [|exact E'].
  eapply raise_high_verified; [exact Hin|exact E].
Qed.

(** *** Under a threshold probe *)

Section Threshold.

Variable T : Z.
Hypothesis Hthr : threshold func T.

Lemma attempt_threshold c s tr :
  exists s', attempt func c s tr = (c <=? T, s', tr ++ [(c, c <=? T)]).
Proof.
  unfold attempt. specialize (Hthr c s).
  destruct (func c s) as [u s'|e s']; simpl in Hthr; rewrite <- Hthr;
    exists s'; reflexivity.
Qed.

Lemma lower_threshold : 1 <= T -> forall fuel l s tr,
  T < l -> (Z.to_nat l <= fuel)%nat ->
  exists l' s' tr',
    lower func fuel l s tr = Some (true, l', s', tr') /\
    1 <= l' <= T /\ In (l', true) tr'.
Proof.
  intros HT. induction fuel as [|fuel IH]; intros l s tr Hl Hfuel; [lia|].
  simpl. destruct (Z.gtb_spec l 0) as [_|Hle]; [|lia].
  destruct (attempt_threshold (l / 2) s tr) as (s1 & ->).
  assert (1 <= l / 2 < l) as Hhalf by (Z.div_mod_to_equations; lia).
  destruct (Z.leb_spec (l / 2) T) as [Hok|Hfail].
  - exists (l / 2), s1, (tr ++ [(l / 2, true)]).
    repeat split; try lia. apply in_or_app. right. left. reflexivity.
  - apply IH; lia.
Qed.

Lemma raise_high_threshold : forall fuel l s tr,
  1 <= l <= T -> (Z.to_nat (T - l) < fuel)%nat ->
  exists b, raise_high func fuel l s tr = Some b /\
            1 <= low b <= T /\ T < high b /\ high b = 2 * low b.
Proof.
  induction fuel as [|fuel IH]; intros l s tr Hl Hfuel; [lia|].
  simpl. destruct (attempt_threshold (2 * l) s tr) as (s1 & ->).
  destruct (Z.leb_spec (2 * l) T) as [Hok|Hfail].
  - apply IH; lia.
  - eexists. split; [reflexivity|]. simpl. lia.
Qed.

Lemma bisect_step_threshold (b : @bracket St) :
  low b + 2 <= high b -> low b <= T < high b ->
  low (bisect_step func b) <= T < high (bisect_step func b).
Proof.
  intros Hgap Hb. unfold bisect_step.
  destruct (attempt_threshold ((low b + high b) / 2) (st b) (trace b))
    as (s1 & ->).
  destruct (Z.leb_spec ((low b + high b) / 2) T); simpl; lia.
Qed.

Lemma bisect_threshold margin fuel : 0 < margin -> forall b b',
  low b <= T < high b -> bisect func fuel margin b = Some b' ->
  low b' <= T < high b'.
Proof.
  intros Hm. induction fuel as [|fuel IH]; intros b b' Hb; simpl;
    destruct (Z.gtb_spec (high b - low b) margin) as [Hgt|Hle];
    try discriminate.
  - intros [= <-]. exact Hb.
  - intros H. eapply IH; [|exact H].
    apply bisect_step_threshold; [lia|exact Hb].
  - intros [= <-]. exact Hb.
Qed.

Lemma widen_threshold fuel margin l s tr :
  0 < margin -> 1 <= l <= T -> (Z.to_nat T < fuel)%nat ->
  exists v s' tr',
    widen func fuel margin l s tr = Some (Returns (Some v) s', tr') /\
    T - margin < v <= T.
Proof.
  intros Hm Hl Hfuel. unfold widen, refine.
  destruct (raise_high_threshold fuel l s tr Hl ltac:(lia))
    as (b & -> & Hlow & Hhigh & Hdouble).
  destruct (bisect_enough margin Hm fuel b ltac:(lia)) as (b' & E & Hgap).
  rewrite E. exists (low b'), (st b'), (trace b').
  split; [reflexivity|].
  pose proof (bisect_threshold margin fuel Hm b b' ltac:(lia) E). lia.
Qed.

End Threshold.

(** *** Under a probe that never succeeds *)

Lemma attempt_hopeless c s tr :
  hopeless func -> 0 <= c ->
  exists s', attempt func c s tr = (false, s', tr ++ [(c, false)]).
Proof.
  intros Hno Hc. unfold attempt. specialize (Hno c s Hc).
  destruct (func c s) as [u s'|e s']; simpl in Hno; [discriminate|].
  exists s'. reflexivity.
Qed.

Lemma lower_hopeless : hopeless func -> forall fuel l s tr,
  0 <= l -> (Z.to_nat l <= fuel)%nat ->
  exists s' tr', lower func fuel l s tr = Some (false, 0, s', tr').
Proof.
  intros Hno. induction fuel as [|fuel IH]; intros l s tr Hl Hfuel; simpl;
    destruct (Z.gtb_spec l 0) as [Hpos|Hle].
  - lia.
  - assert (l = 0) as -> by lia. eauto.
  - assert (0 <= l / 2 < l) as Hhalf by (Z.div_mod_to_equations; lia).
    destruct (attempt_hopeless (l / 2) s tr Hno ltac:(lia)) as (s1 & ->).
    apply IH; lia.
  - assert (l = 0) as -> by lia. eauto.
Qed.

(** With no candidate that succeeds, the search returns [None]. *)
Lemma no_success_returns_none lo margin s fuel :
  hopeless func -> 0 < lo -> 0 < margin -> (Z.to_nat lo <= fuel)%nat ->
  exists s' tr,
    best_param_search func fuel lo margin s = Some (Returns None s', tr).
Proof.
  intros Hno Hlo Hm Hfuel. unfold best_param_search.
  destruct (Z.gtb_spec lo 0) as [_|?]; [|lia].
  destruct (Z.gtb_spec margin 0) as [_|?]; [|lia]. simpl.
  destruct (attempt_hopeless lo s [] Hno ltac:(lia)) as (s1 & ->).
  destruct (lower_hopeless Hno fuel lo s1 ([] ++ [(lo, false)]) ltac:(lia) Hfuel)
    as (s2 & tr2 & ->).
  eauto.
Qed.

End SearchFacts.

Section SearchPreserves.

Context {St : Type}.
Variable func : Z -> M St unit.
Variable P : St -> Prop.
Hypothesis Hfunc : forall c s, P s -> P (final (func c s)).

Lemma attempt_preserves c s tr ok s' tr' :
  P s -> attempt func c s tr = (ok, s', tr') -> P s'.
Proof.
  intros HP. unfold attempt. specialize (Hfunc c s HP).
  destruct (func c s); simpl in Hfunc; intros [= _ <- _]; exact Hfunc.
Qed.

Lemma lower_preserves fuel : forall l s tr ok l' s' tr',
  P s -> lower func fuel l s tr = Some (ok, l', s', tr') -> P s'.
Proof.
  induction fuel as [|fuel IH]; intros l s tr ok l' s' tr' HP; simpl;
    destruct (l >? 0); try discriminate.
  - intros [= _ _ <- _]. exact HP.
  - destruct (attempt func (l / 2) s tr) as [[ok1 s1] tr1] eqn:E.
    pose proof (attempt_preserves _ _ _ _ _ _ HP E) as HP1.
    destruct ok1.
    + intros [= _ _ <- _]. exact HP1.
    + apply IH, HP1.
  - intros [= _ _ <- _]. exact HP.
Qed.

Lemma raise_high_preserves fuel : forall l s tr b,
  P s -> raise_high func fuel l s tr = Some b -> P (st b).
Proof.
  induction fuel as [|fuel IH]; intros l s tr b HP; simpl; [discriminate|].
  destruct (attempt func (2 * l) s tr) as [[ok1 s1] tr1] eqn:E.
  pose proof (attempt_preserves _ _ _ _ _ _ HP E) as HP1.
  destruct ok1.
  - apply IH, HP1.
  - intros [= <-]. exact HP1.
Qed.

Lemma bisect_step_preserves (b : @bracket St) :
  P (st b) -> P (st (bisect_step func b)).
Proof.
  intros HP. unfold bisect_step.
  destruct (attempt func ((low b + high b) / 2) (st b) (trace b))
    as [[ok1 s1] tr1] eqn:E.
  pose proof (attempt_preserves _ _ _ _ _ _ HP E) as HP1.
  destruct ok1; exact HP1.
Qed.

Lemma bisect_preserves margin fuel : forall b b',
  P (st b) -> bisect func fuel margin b = Some b' -> P (st b').
Proof.
  induction fuel as [|fuel IH]; intros b b' HP; simpl;
    destruct (high b - low b >? margin); try discriminate.
  - intros [= <-]. exact HP.
  - apply IH, bisect_step_preserves, HP.
  - intros [= <-]. exact HP.
Qed.

Lemma widen_preserves fuel margin l s tr o tr' :
  P s -> widen func fuel margin l s tr = Some (o, tr') ->
  P (final o) /\ exists v, o = Returns (Some v) (final o).
Proof.
  intros HP. unfold widen, refine.
  destruct (raise_high func fuel l s tr) as [b|] eqn:E; [|discriminate].
  destruct (bisect func fuel margin b) as [b'|] eqn:E'; [|discriminate].
  intros [= <- _]. simpl. split; [|eauto].
  eapply bisect_preserves; [|exact E'].
  eapply raise_high_preserves; [exact HP|exact E].
Qed.

(** What every call of the probe preserves holds when the search ends. *)
Lemma best_param_search_preserves fuel lo margin s o tr :
  P s -> best_param_search func fuel lo margin s = Some (o, tr) ->
  P (final o).
Proof.
  intros HP. unfold best_param_search.
  destruct (negb (lo >? 0)); [intros [= <- _]; exact HP|].
  destruct (negb (margin >? 0)); [intros [= <- _]; exact HP|].
  destruct (attempt func lo s []) as [[ok1 s1] tr1] eqn:E.
  pose proof (attempt_preserves _ _ _ _ _ _ HP E) as HP1.
  destruct ok1.
  - intros H. eapply widen_preserves; [exact HP1|exact H].
  - destruct (lower func fuel lo s1 tr1) as [[[[ok2 l2] s2] tr2]|] eqn:E';
      [|discriminate].
    pose proof (lower_preserves _ _ _ _ _ _ _ _ HP1 E') as HP2.
    destruct ok2.
    + intros H. eapply widen_preserves; [exact HP2|exact H].
    + intros [= <- _]. exact HP2.
Qed.

(** A search that returns [None] has gone through its halving loop. *)
Lemma returns_none_needs_fuel fuel lo margin s s' tr :
  best_param_search func fuel lo margin s = Some (Returns None s', tr) ->
  fuel <> O.
Proof.
  unfold best_param_search.
  destruct (Z.gtb_spec lo 0) as [Hlo|?]; simpl; [|discriminate].
  destruct (negb (margin >? 0)); [discriminate|].
  destruct (attempt func lo s []) as [[ok1 s1] tr1] eqn:E.
  destruct ok1.
  - unfold widen, refine.
    destruct (raise_high func fuel lo s1 tr1); [|discriminate].
    destruct (bisect func fuel margin b); discriminate.
  - destruct fuel; [|discriminate]. simpl.
    destruct (Z.gtb_spec lo 0); [discriminate|lia].
Qed.

End SearchPreserves.




Lemma raise_high_zero_probe fuel : forall tr,
  raise_high zero_probe fuel 0 tt tr = None.
Proof. induction fuel as [|fuel IH]; intros tr; simpl; [reflexivity|apply IH]. Qed.

(** C4, at a probe that raises on every positive candidate and returns at
    0.  The halving loop goes on to try 0, takes it as the floor, and the
    doubling loop then probes [2 * 0] for ever: whatever the fuel, the search
    has not returned. *)
Theorem C4_zero_floor_never_returns :
  (forall c s, returns (zero_probe c s) = (c =? 0)) /\
  (forall fuel, best_param_search zero_probe fuel 1 1 tt = None) /\
  lower zero_probe 1 1 tt [(1, false)]
    = Some (true, 0, tt, [(1, false); (0, true)]).
Proof.
  split; [|split].
  - intros c s. unfold zero_probe. destruct (c =? 0); reflexivity.
  - intros [|fuel]; [reflexivity|].
    change (best_param_search zero_probe (S fuel) 1 1 tt)
      with (match raise_high zero_probe (S fuel) 0 tt [(1, false); (0, true)] with
            | None => None
            | Some b => refine zero_probe (S fuel) 1 b
            end).
    rewrite raise_high_zero_probe. reflexivity.
  - reflexivity.
Qed.

(** C6.  With [margin > 0], whatever the probe does: a pass through the
    bisection loop strictly shrinks [high - low], the loop ends within
    [high - low] passes with [high - low <= margin], and the value returned
    is the [low] it ends with. *)
Theorem C6_bisection_terminates {St : Type} (func : Z -> M St unit)
    (margin : Z) (b : @bracket St) :
  0 < margin ->
  (margin < high b - low b ->
   0 < high (bisect_step func b) - low (bisect_step func b) < high b - low b) /\
  (forall fuel, (Z.to_nat (high b - low b) <= fuel)%nat ->
     exists b',
       bisect func fuel margin b = Some b' /\
       high b' - low b' <= margin /\
       refine func fuel margin b = Some (Returns (Some (low b')) (st b'), trace b')).
Proof.
  intros Hm. split.
  - apply bisect_step_gap, Hm.
  - intros fuel Hfuel.
    destruct (bisect_enough func margin Hm fuel b Hfuel) as (b' & E & Hgap).
    exists b'. repeat split; [exact E|exact Hgap|].
    unfold refine. rewrite E. reflexivity.
Qed.

Lemma C6_witness :
  exists b',
    bisect (threshold_probe 37) 32 1 (Bracket 32 64 tt []) = Some b' /\
    high b' - low b' <= 1 /\
    refine (threshold_probe 37) 32 1 (Bracket 32 64 tt [])
      = Some (Returns (Some (low b')) (st b'), trace b').
Proof.
  apply (C6_bisection_terminates (threshold_probe 37) 1 (Bracket 32 64 tt [])).
  - lia.
  - vm_compute. lia.
Defined.

(** C7, at a probe that succeeds on its second call only.  The search from
    [low = 1] fails at 1, succeeds at 0, and the doubling loop then fails at
    [2 * 0]: [high] is established with [low = high = 0], so [low < high]
    does not hold, and 0 is returned. *)
Theorem C7_bracket_collapses_at_zero :
  lower second_call_probe 1 1 1%nat [(1, false)]
    = Some (true, 0, 2%nat, [(1, false); (0, true)]) /\
  raise_high second_call_probe 1 0 2%nat [(1, false); (0, true)]
    = Some (Bracket 0 0 3%nat [(1, false); (0, true); (0, false)]) /\
  ~ bracketed (Bracket 0 0 3%nat [(1, false); (0, true); (0, false)]) /\
  best_param_search second_call_probe 1 1 1 0%nat
    = Some (Returns (Some 0) 3%nat, [(1, false); (0, true); (0, false)]).
Proof.
  repeat split.
  intros (Hlt & _). simpl in Hlt. lia.
Qed.

(** C10.  A value the search returns has been the argument of a call of the
    probe that returned: it is in the trace of the calls, marked as a
    success. *)
Theorem C10_returned_value_was_probed {St : Type} (func : Z -> M St unit)
    (fuel : nat) (lo margin : Z) (s s' : St) (v : Z) (tr : calls) :
  0 < lo -> 0 < margin ->
  best_param_search func fuel lo margin s = Some (Returns (Some v) s', tr) ->
  In (v, true) tr.
Proof.
  intros Hlo Hm. unfold best_param_search.
  destruct (Z.gtb_spec lo 0) as [_|?]; [|lia].
  destruct (Z.gtb_spec margin 0) as [_|?]; [|lia]. simpl.
  destruct (attempt func lo s []) as [[ok s1] tr1] eqn:E.
  pose proof (attempt_trace _ _ _ _ _ _ _ E) as ->.
  destruct ok.
  - apply widen_verified. simpl. left. reflexivity.
  - destruct (lower func fuel lo s1 ([] ++ [(lo, false)]))
      as [[[[ok l'] s2] tr2]|] eqn:E'; [|discriminate].
    destruct ok; [|discriminate].
    apply widen_verified. eapply lower_verified, E'.
Qed.

Lemma C10_witness :
  best_param_search (threshold_probe 37) 20 1 1 tt
    = Some (Returns (Some 37) tt,
            [(1, true); (2, true); (4, true); (8, true); (16, true);
             (32, true); (64, false); (48, false); (40, false); (36, true);
             (38, false); (37, true)]) /\
  In (37, true)
     [(1, true); (2, true); (4, true); (8, true); (16, true);
      (32, true); (64, false); (48, false); (40, false); (36, true);
      (38, false); (37, true)].
Proof.
  split; [reflexivity|].
  apply (C10_returned_value_was_probed (threshold_probe 37) 20 1 1 tt tt 37).
  - lia.
  - lia.
  - reflexivity.
Defined.

(** ** The probe closures and the tuning run *)

Import AutoScaler.

Section AutoScalerFacts.

Context {World : Type}.
Variable trainer : config -> bool -> World -> ending * World.
Variable num_iters : Z.

Abbreviation state := (@state World).

Lemma getitem_found k1 k2 (s : state) d v :
  cfg s !! k1 = Some d -> d !! k2 = Some v -> getitem k1 k2 s = Returns v s.
Proof. intros H1 H2. unfold getitem. rewrite H1, H2. reflexivity. Qed.

Lemma getitem_lookup2 k1 k2 (s : state) v :
  lookup2 (cfg s) k1 k2 = Some v -> getitem k1 k2 s = Returns v s.
Proof.
  unfold lookup2, getitem. destruct (cfg s !! k1); [|discriminate].
  intros ->. reflexivity.
Qed.

Lemma getitem_missing k1 k2 (s : state) :
  lookup2 (cfg s) k1 k2 = None ->
  exists k, getitem k1 k2 s = Raises (KeyError k) s.
Proof.
  unfold lookup2, getitem. destruct (cfg s !! k1); [|eauto].
  intros ->. eauto.
Qed.

Lemma setitem_found k1 k2 v (s : state) d :
  cfg s !! k1 = Some d ->
  setitem k1 k2 v s
    = Returns tt (State (<[k1 := <[k2 := v]> d]> (cfg s)) (world s) (events s)).
Proof. intros H. unfold setitem. rewrite H. reflexivity. Qed.

(** A crash of the child leaves nothing in the pipe, and the parent
    raises nothing. *)
Lemma launch_process_died func args (s : state) :
  fst (func (fst args) (snd args) (world s)) = Died ->
  returns (launch_process func args s) = true.
Proof.
  unfold launch_process.
  destruct (func (fst args) (snd args) (world s)) as [t w]. simpl.
  intros ->. reflexivity.
Qed.

(** The closure of stage A, step by step, up to the launch. *)
Lemma stage_a_probe_steps
    (c : Z) (s : state) (tr en : gmap string val) (len q : val) :
  cfg s !! "trainer" = Some tr ->
  cfg s !! "env" = Some en ->
  en !! "episode_length" = Some len ->
  py_truediv (VInt (num_iters * c)) len = inr q ->
  set_num_envs_and_train trainer num_iters c s
    = launch_process trainer (written_by_stage_a c q tr (cfg s), false)
        (State (written_by_stage_a c q tr (cfg s)) (world s)
               (events s ++ [EvProbe StageA c])).
Proof.
  intros Htr Hen Hlen Hq.
  unfold set_num_envs_and_train, set_num_episodes, bind, note, the_config,
    written_by_stage_a.
  simpl.
  erewrite setitem_found by exact Htr. simpl.
  erewrite setitem_found by apply lookup_insert_eq. simpl.
  rewrite insert_insert_eq.
  erewrite getitem_found;
    [|apply lookup_insert_eq|apply lookup_insert_eq]. simpl.
  erewrite getitem_found;
    [|simpl; rewrite lookup_insert_ne by discriminate; exact Hen|exact Hlen].
  rewrite Hq. simpl.
  erewrite setitem_found by apply lookup_insert_eq. simpl.
  rewrite insert_insert_eq. reflexivity.
Qed.

Lemma written_by_stage_a_lookups c q tr (conf : config) :
  lookup2 (written_by_stage_a c q tr conf) "trainer" "num_envs"
    = Some (VInt c) /\
  lookup2 (written_by_stage_a c q tr conf) "trainer" "train_batch_size"
    = Some (VInt c) /\
  lookup2 (written_by_stage_a c q tr conf) "trainer" "num_episodes"
    = Some q /\
  (forall k, k <> "trainer" -> written_by_stage_a c q tr conf !! k = conf !! k).
Proof.
  unfold lookup2, written_by_stage_a. rewrite lookup_insert_eq.
  split; [|split; [|split]].
  - rewrite lookup_insert_ne by discriminate.
    rewrite lookup_insert_ne by discriminate.
    apply lookup_insert_eq.
  - rewrite lookup_insert_ne by discriminate. apply lookup_insert_eq.
  - apply lookup_insert_eq.
  - intros k Hk. apply lookup_insert_ne. congruence.
Qed.

(** *** What the probe closures leave alone *)

Lemma frame_refl (s : state) : frame s s.
Proof. split; auto. Qed.

Lemma frame_trans (s1 s2 s3 : state) :
  frame s1 s2 -> frame s2 s3 -> frame s1 s3.
Proof.
  intros [Ha Hb] [Hc Hd]. split; [auto|].
  intros k Hk. rewrite Hd, Hb by exact Hk. reflexivity.
Qed.

Lemma framed_bind {A B} (m : M state A) (k : A -> M state B) :
  framed m -> (forall a, framed (k a)) -> framed (bind m k).
Proof.
  intros Hm Hk s. unfold bind. specialize (Hm s).
  destruct (m s) as [a s1|e s1]; simpl in Hm; [|exact Hm].
  eapply frame_trans; [exact Hm|apply Hk].
Qed.

Lemma framed_note ev : framed (World:=World) (note ev).
Proof. intros s. split; simpl; auto. Qed.

Lemma framed_getitem k1 k2 : framed (World:=World) (getitem k1 k2).
Proof.
  intros s. unfold getitem.
  destruct (cfg s !! k1) as [d|]; [destruct (d !! k2)|]; apply frame_refl.
Qed.

Lemma framed_lift {A} (r : exn + A) : framed (World:=World) (lift r).
Proof. intros s. destruct r; apply frame_refl. Qed.

Lemma framed_setitem_trainer k2 v : framed (World:=World) (setitem "trainer" k2 v).
Proof.
  intros s. unfold setitem.
  destruct (cfg s !! "trainer") as [d|]; [|apply frame_refl].
  split; simpl.
  - intros _. rewrite lookup_insert_eq. eauto.
  - intros k Hk. apply lookup_insert_ne. congruence.
Qed.

Lemma framed_the_config : framed (World:=World) the_config.
Proof. intros s. apply frame_refl. Qed.

Lemma framed_launch_process func args :
  framed (World:=World) (launch_process func args).
Proof.
  intros s. unfold launch_process.
  destruct (func (fst args) (snd args) (world s)) as [t w].
  destruct (ProcessWrapper.exception (ProcessWrapper.run t) None);
    split; simpl; auto.
Qed.

Lemma framed_set_num_envs_and_train c :
  framed (set_num_envs_and_train trainer num_iters c).
Proof.
  unfold set_num_envs_and_train.
  repeat (apply framed_bind; [|intros ?]);
    auto using framed_note, framed_getitem, framed_lift,
      framed_setitem_trainer, framed_the_config, framed_launch_process.
Qed.

Lemma stage_a_search_frame fuel n (s s' : state) r :
  search fuel n 1 (set_num_envs_and_train trainer num_iters) s
    = Ends (Returns r s') ->
  frame s s'.
Proof.
  unfold search.
  destruct (best_param_search _ fuel n 1 s) as [[o tr]|] eqn:E; [|discriminate].
  intros [= ->].
  apply (best_param_search_preserves _ (frame s)) in E; [exact E| |apply frame_refl].
  intros c s1 H1. eapply frame_trans; [exact H1|].
  apply framed_set_num_envs_and_train.
Qed.

(** *** The run around the two searches *)

Lemma save_initial_returns (s s1 : state) saved :
  save_initial s = Returns saved s1 ->
  lookup2 (cfg s) "trainer" "num_episodes" = Some (fst saved) /\
  lookup2 (cfg s) "saving" "use_wandb" = Some (snd saved) /\
  lookup2 (cfg s1) "saving" "use_wandb" = Some (VBool false) /\
  cfg s1 !! "trainer" = cfg s !! "trainer" /\
  world s1 = world s /\ events s1 = events s.
Proof.
  unfold save_initial, bind, getitem, setitem, lookup2, ret.
  destruct (cfg s !! "trainer") as [t|] eqn:Et; [|discriminate].
  destruct (t !! "num_episodes") as [ne|]; [|discriminate].
  destruct (cfg s !! "saving") as [sv|] eqn:Es; [|discriminate].
  destruct (sv !! "use_wandb") as [uw|]; [|discriminate].
  simpl. rewrite Es. intros [= <- <-]. simpl.
  rewrite lookup_insert_eq, lookup_insert_eq.
  rewrite lookup_insert_ne by discriminate. repeat split; auto.
Qed.

Lemma put_back_returns (s s' : state) saved :
  put_back saved s = Returns tt s' ->
  lookup2 (cfg s') "trainer" "num_episodes" = Some (fst saved) /\
  lookup2 (cfg s') "saving" "use_wandb" = Some (snd saved).
Proof.
  unfold put_back, bind, setitem, lookup2.
  destruct (cfg s !! "trainer") as [t|] eqn:Et; [|discriminate]. simpl.
  rewrite lookup_insert_ne by discriminate.
  destruct (cfg s !! "saving") as [sv|] eqn:Es; [|discriminate].
  intros [= <-]. simpl.
  rewrite lookup_insert_ne by discriminate.
  rewrite !lookup_insert_eq. auto.
Qed.

(** A run that returns has saved the two fields and has put them back. *)
Lemma auto_scaling_returns fuel (s s' : state) :
  auto_scaling trainer num_iters fuel s = Ends (Returns tt s') ->
  exists saved s1 s4,
    save_initial s = Returns saved s1 /\ put_back saved s4 = Returns tt s'.
Proof.
  unfold auto_scaling, bindR, total.
  destruct (save_initial s) as [saved s1|e s1]; [|discriminate].
  destruct (stage_a _ _ fuel s1) as [[[] s2|e s2]| |]; try discriminate.
  destruct (stage_b _ _ fuel s2) as [[[] s3|e s3]| |]; try discriminate.
  intros [= H]. eauto.
Qed.

(** The closure of stage B on a configuration whose [num_envs] is
    [None]: the product raises, before anything is written or launched. *)
Lemma stage_b_probe_on_none c (s : state) :
  lookup2 (cfg s) "trainer" "num_envs" = Some VNone ->
  set_batch_size_per_env_and_train trainer num_iters c s
    = Raises TypeError
        (State (cfg s) (world s) (events s ++ [EvProbe StageB c])).
Proof.
  intros Hnone. unfold set_batch_size_per_env_and_train, bind, note.
  rewrite (getitem_lookup2 _ _ _ VNone) by exact Hnone. reflexivity.
Qed.

(** Stage B from there: the closure is called at 1 and at 0. *)
Lemma stage_b_search_on_none fuel (s : state) :
  fuel <> O ->
  lookup2 (cfg s) "trainer" "num_envs" = Some VNone ->
  search fuel 1 1 (set_batch_size_per_env_and_train trainer num_iters) s
    = Ends (Returns None
              (State (cfg s) (world s)
                     (events s ++ [EvProbe StageB 1; EvProbe StageB 0]))).
Proof.
  intros Hfuel Hnone. destruct fuel as [|fuel]; [congruence|].
  unfold search, best_param_search.
  change (negb (1 >? 0)) with false. cbv iota.
  unfold attempt at 1. rewrite stage_b_probe_on_none by exact Hnone.
  cbv iota. rewrite lower_S.
  change (1 >? 0) with true. change (1 / 2) with 0. cbv iota.
  unfold attempt. rewrite stage_b_probe_on_none by exact Hnone.
  cbv iota. rewrite lower_nonpositive by lia.
  simpl. rewrite <- app_assoc. reflexivity.
Qed.

(** What a run does once stage A has found no value. *)
Lemma stage_a_failure fuel (s s1 s2 : state) saved n :
  save_initial s = Returns saved s1 ->
  lookup2 (cfg s1) "trainer" "num_envs" = Some (VInt n) ->
  search fuel n 1 (set_num_envs_and_train trainer num_iters) s1
    = Ends (Returns None s2) ->
  exists tr2,
    cfg s2 !! "trainer" = Some tr2 /\
    cfg s2 !! "saving" = cfg s1 !! "saving" /\
    auto_scaling trainer num_iters fuel s
      = Ends (Raises TypeError
                (State (<["trainer" := <["num_envs" := VNone]> tr2]> (cfg s2))
                       (world s2)
                       (events s2 ++ [EvProbe StageB 1; EvProbe StageB 0]))).
Proof.
  intros Hsave Hnum Hsearch.
  pose proof (stage_a_search_frame _ _ _ _ _ Hsearch) as [Htr Hother].
  destruct Htr as [tr2 Htr2].
  { unfold lookup2 in Hnum. destruct (cfg s1 !! "trainer"); [eauto|discriminate]. }
  assert (fuel <> O) as Hfuel.
  { unfold search in Hsearch.
    destruct (best_param_search _ fuel n 1 s1) as [[o tr]|] eqn:E; [|discriminate].
    injection Hsearch as ->. eapply returns_none_needs_fuel, E. }
  exists tr2. split; [exact Htr2|]. split; [apply Hother; discriminate|].
  unfold auto_scaling, bindR, total. rewrite Hsave.
  unfold stage_a, bindR, total.
  rewrite (getitem_lookup2 _ _ _ _ Hnum). simpl. rewrite Hsearch. simpl.
  rewrite (setitem_found _ _ _ _ _ Htr2).
  unfold stage_b, bindR, total.
  rewrite stage_b_search_on_none;
    [|exact Hfuel|unfold lookup2; simpl; rewrite !lookup_insert_eq; reflexivity].
  erewrite getitem_found; [|apply lookup_insert_eq|apply lookup_insert_eq].
  reflexivity.
Qed.


(** C3 (as amended).  When the search of stage A returns [None], the
    tuning run fails, with a [TypeError]; [trainer.num_envs] is left at
    [None], the rest of the configuration as stage A left it; stage B is
    entered: its probe closure is called at 1 and at 0, and no process is
    launched from there. *)
Theorem C3_stage_a_failure_breaks_run fuel (s s1 s2 : state) saved n :
  save_initial s = Returns saved s1 ->
  lookup2 (cfg s1) "trainer" "num_envs" = Some (VInt n) ->
  search fuel n 1 (set_num_envs_and_train trainer num_iters) s1
    = Ends (Returns None s2) ->
  exists s3,
    auto_scaling trainer num_iters fuel s = Ends (Raises TypeError s3) /\
    lookup2 (cfg s3) "trainer" "num_envs" = Some VNone /\
    (forall k1 k2, (k1, k2) <> ("trainer", "num_envs") ->
       lookup2 (cfg s3) k1 k2 = lookup2 (cfg s2) k1 k2) /\
    world s3 = world s2 /\
    events s3 = events s2 ++ [EvProbe StageB 1; EvProbe StageB 0].
Proof.
  intros Hsave Hnum Hsearch.
  destruct (stage_a_failure fuel s s1 s2 saved n Hsave Hnum Hsearch)
    as (tr2 & Htr2 & _ & ->).
  eexists. split; [reflexivity|]. simpl. repeat split.
  - unfold lookup2. rewrite !lookup_insert_eq. reflexivity.
  - intros k1 k2 Hk. unfold lookup2.
    destruct (decide (k1 = "trainer")) as [->|Hk1].
    + rewrite lookup_insert_eq, Htr2. apply lookup_insert_ne. congruence.
    + rewrite lookup_insert_ne by congruence. reflexivity.
Qed.

(** C5 (as amended).  When the tuning run returns, [saving.use_wandb] and
    [trainer.num_episodes] have their values of before the call.  When the
    search of stage A returns [None], the run ends in a [TypeError] and
    [saving.use_wandb] is left at [False]. *)
Theorem C5_restored_on_return_only fuel (s : state) :
  (forall s', auto_scaling trainer num_iters fuel s = Ends (Returns tt s') ->
     lookup2 (cfg s') "saving" "use_wandb"
       = lookup2 (cfg s) "saving" "use_wandb" /\
     lookup2 (cfg s') "trainer" "num_episodes"
       = lookup2 (cfg s) "trainer" "num_episodes") /\
  (forall s1 s2 saved n,
     save_initial s = Returns saved s1 ->
     lookup2 (cfg s1) "trainer" "num_envs" = Some (VInt n) ->
     search fuel n 1 (set_num_envs_and_train trainer num_iters) s1
       = Ends (Returns None s2) ->
     exists s3,
       auto_scaling trainer num_iters fuel s = Ends (Raises TypeError s3) /\
       lookup2 (cfg s3) "saving" "use_wandb" = Some (VBool false)).
Proof.
  split.
  - intros s' Hret.
    destruct (auto_scaling_returns fuel s s' Hret) as (saved & s1 & s4 & Hsave & Hput).
    destruct (save_initial_returns _ _ _ Hsave) as (Hne & Huw & _).
    destruct (put_back_returns _ _ _ Hput) as (Hne' & Huw').
    rewrite Hne, Huw, Hne', Huw'. auto.
  - intros s1 s2 saved n Hsave Hnum Hsearch.
    destruct (stage_a_failure fuel s s1 s2 saved n Hsave Hnum Hsearch)
      as (tr2 & Htr2 & Hsaving & ->).
    destruct (save_initial_returns _ _ _ Hsave) as (_ & _ & Hoff & _).
    eexists. split; [reflexivity|]. simpl.
    unfold lookup2 in *. rewrite lookup_insert_ne by discriminate.
    rewrite Hsaving. exact Hoff.
Qed.

(** C9 (as amended).  On a configuration without
    [trainer.num_episodes], [saving.use_wandb] or [trainer.num_envs], the
    tuning run raises a [KeyError] before any probe is called and before
    any process is launched. *)
Theorem C9_missing_seed_field_fails_fast fuel (s : state) :
  lookup2 (cfg s) "trainer" "num_episodes" = None \/
  lookup2 (cfg s) "saving" "use_wandb" = None \/
  lookup2 (cfg s) "trainer" "num_envs" = None ->
  exists k s',
    auto_scaling trainer num_iters fuel s = Ends (Raises (KeyError k) s') /\
    events s' = events s /\ world s' = world s.
Proof.
  intros Hmiss.
  unfold auto_scaling, bindR, total.
  destruct (save_initial s) as [saved s1|e s1] eqn:Hsave.
  - destruct (save_initial_returns _ _ _ Hsave)
      as (Hne & Huw & _ & Htr & Hw & Hev).
    destruct Hmiss as [H|[H|H]]; [congruence|congruence|].
    unfold stage_a, bindR, total.
    destruct (getitem_missing "trainer" "num_envs" s1) as (k & ->).
    { unfold lookup2 in *. rewrite Htr. exact H. }
    eauto.
  - revert Hsave.
    unfold save_initial, bind, getitem, setitem, ret.
    destruct (cfg s !! "trainer") as [t|]; [|intros [= <- <-]; eauto].
    destruct (t !! "num_episodes"); [|intros [= <- <-]; eauto].
    destruct (cfg s !! "saving") as [sv|] eqn:Es; [|intros [= <- <-]; eauto].
    destruct (sv !! "use_wandb"); [|intros [= <- <-]; eauto].
    simpl. rewrite Es. discriminate.
Qed.

End AutoScalerFacts.


(** *** The example run with a trainer that always raises *)

Lemma example_save :
  save_initial (start example_config)
    = Returns (VInt 100, VBool true) example_saved.
Proof. apply returns_eta. vm_compute. reflexivity. Qed.

Lemma example_seed :
  lookup2 (cfg example_saved) "trainer" "num_envs" = Some (VInt 8).
Proof. vm_compute. reflexivity. Qed.

(** Stage A tries 8, 4, 2, 1 and 0, none succeeds, and its search returns
    [None]. *)
Lemma failing_run_stage_a :
  search 10 8 1 (set_num_envs_and_train failing_trainer 2) example_saved
    = Ends (Returns None failing_run_searched).
Proof. apply run_returns_eta. vm_compute. reflexivity. Qed.

Lemma failing_run_stage_a_candidates :
  candidates StageA (events failing_run_searched) = [8; 4; 2; 1; 0] /\
  lookup2 (cfg failing_run_searched) "trainer" "num_envs" = Some (VInt 0).
Proof. split; vm_compute; reflexivity. Qed.

Lemma C3_witness :
  result_of failing_run = Some (inl TypeError) /\
  lookup2 (cfg (state_of failing_run (start example_config)))
          "trainer" "num_envs" = Some VNone /\
  candidates StageB (events (state_of failing_run (start example_config)))
    = [1; 0].
Proof.
  destruct (C3_stage_a_failure_breaks_run failing_trainer 2 10
              (start example_config) example_saved failing_run_searched
              (VInt 100, VBool true) 8
              example_save example_seed failing_run_stage_a)
    as (s3 & Hrun & Hnone & _ & _ & Hev).
  unfold failing_run. rewrite Hrun. simpl.
  split; [reflexivity|]. split; [exact Hnone|].
  rewrite Hev. vm_compute. reflexivity.
Defined.

(** C3 as stated fails: after a stage A that found no value, the closure
    of stage B has been called, and [trainer.num_envs] is [None], not the 0
    that stage A tried last. *)
Lemma C3_counterexample :
  search 10 8 1 (set_num_envs_and_train failing_trainer 2) example_saved
    = Ends (Returns None failing_run_searched) /\
  candidates StageA (events failing_run_searched) = [8; 4; 2; 1; 0] /\
  result_of failing_run = Some (inl TypeError) /\
  candidates StageB (events (state_of failing_run (start example_config)))
    = [1; 0] /\
  lookup2 (cfg (state_of failing_run (start example_config)))
          "trainer" "num_envs" = Some VNone /\
  ~ (candidates StageB (events (state_of failing_run (start example_config)))
       = [] /\
     lookup2 (cfg (state_of failing_run (start example_config)))
             "trainer" "num_envs" = Some (VInt 0)).
Proof.
  split; [exact failing_run_stage_a|].
  split; [vm_compute; reflexivity|].
  split; [vm_compute; reflexivity|].
  split; [vm_compute; reflexivity|].
  split; [vm_compute; reflexivity|].
  intros [H _]. vm_compute in H. discriminate.
Qed.

(** *** The example run with a trainer that has a boundary *)

Lemma capped_run_returns :
  capped_run = Ends (Returns tt (state_of capped_run (start example_config))).
Proof. apply run_returns_eta. vm_compute. reflexivity. Qed.

Lemma C5_witness :
  (lookup2 (cfg (state_of capped_run (start example_config)))
           "saving" "use_wandb"
     = lookup2 (cfg (start example_config)) "saving" "use_wandb" /\
   lookup2 (cfg (state_of capped_run (start example_config)))
           "trainer" "num_episodes"
     = lookup2 (cfg (start example_config)) "trainer" "num_episodes") /\
  exists s3,
    failing_run = Ends (Raises TypeError s3) /\
    lookup2 (cfg s3) "saving" "use_wandb" = Some (VBool false).
Proof.
  split.
  - apply (proj1 (C5_restored_on_return_only (capped_trainer 50 10) 2 40
                    (start example_config))).
    exact capped_run_returns.
  - apply (proj2 (C5_restored_on_return_only failing_trainer 2 10
                    (start example_config))
             example_saved failing_run_searched (VInt 100, VBool true) 8).
    + exact example_save.
    + exact example_seed.
    + exact failing_run_stage_a.
Defined.

(** C5 as stated fails: after a stage A that found no value,
    [saving.use_wandb], [True] before the call, is [False]. *)
Lemma C5_counterexample :
  search 10 8 1 (set_num_envs_and_train failing_trainer 2) example_saved
    = Ends (Returns None failing_run_searched) /\
  result_of failing_run = Some (inl TypeError) /\
  lookup2 (cfg (start example_config)) "saving" "use_wandb"
    = Some (VBool true) /\
  lookup2 (cfg (state_of failing_run (start example_config)))
          "saving" "use_wandb" = Some (VBool false) /\
  lookup2 (cfg (state_of failing_run (start example_config)))
          "saving" "use_wandb"
    <> lookup2 (cfg (start example_config)) "saving" "use_wandb".
Proof.
  split; [exact failing_run_stage_a|].
  split; [vm_compute; reflexivity|].
  split; [vm_compute; reflexivity|].
  split; [vm_compute; reflexivity|].
  vm_compute. discriminate.
Qed.

(** *** Configurations with a field missing *)

Lemma C9_witness :
  exists k s',
    auto_scaling (capped_trainer 50 10) 2 40 (start config_without_num_envs)
      = Ends (Raises (KeyError k) s') /\
    events s' = events (start config_without_num_envs) /\
    world s' = world (start config_without_num_envs).
Proof.
  apply (C9_missing_seed_field_fails_fast (capped_trainer 50 10) 2 40
           (start config_without_num_envs)).
  right. right. vm_compute. reflexivity.
Defined.

(** C9 as stated fails.  Without [trainer.train_batch_size] the run raises
    nothing: the field is written before it is read, nine processes are
    launched and the run returns.  Without [env.episode_length] the
    [KeyError] is raised inside the probe closure, where the search takes it
    for a failed probe: the closure of stage A is called five times, and the
    run ends in a [TypeError]. *)
Lemma C9_counterexample :
  lookup2 config_without_batch_size "trainer" "train_batch_size" = None /\
  result_of (auto_scaling (capped_trainer 10 2) 2 40
               (start config_without_batch_size)) = Some (inr tt) /\
  length (launches (events (state_of
            (auto_scaling (capped_trainer 10 2) 2 40
               (start config_without_batch_size))
            (start config_without_batch_size)))) = 9%nat /\
  lookup2 config_without_episode_length "env" "episode_length" = None /\
  result_of (auto_scaling (capped_trainer 10 2) 2 40
               (start config_without_episode_length)) = Some (inl TypeError) /\
  candidates StageA (events (state_of
      (auto_scaling (capped_trainer 10 2) 2 40
         (start config_without_episode_length))
      (start config_without_episode_length))) = [8; 4; 2; 1; 0].
Proof.
  split; [vm_compute; reflexivity|].
  split; [vm_compute; reflexivity|].
  split; [vm_compute; reflexivity|].
  split; [vm_compute; reflexivity|].
  split; vm_compute; reflexivity.
Qed.

(** *** A trainer whose process dies *)

(** C2, at a trainer whose process dies on every configuration.  Nothing
    is in the pipe, [exception] is [None], [launch_process] returns: the probe
    is taken to have succeeded.  The search of stage A so takes every probe
    whose process has died for a success and doubles [num_envs] on and on;
    it stops only where the division in the closure overflows, and the run
    returns with [trainer.num_envs] beyond [2^1026]. *)
Theorem C2_crash_is_taken_for_success :
  ProcessWrapper.exception (ProcessWrapper.run Died) None = None /\
  returns (launch_process dying_trainer (example_config, false)
             (start example_config)) = true /\
  returns (set_num_envs_and_train dying_trainer 2 8 example_saved) = true /\
  length (launches (events (final (set_num_envs_and_train dying_trainer 2 8
                                     example_saved)))) = 1%nat /\
  result_of (auto_scaling dying_trainer 2 1100 (start example_config))
    = Some (inr tt) /\
  at_least (lookup2 (cfg (state_of
                            (auto_scaling dying_trainer 2 1100
                               (start example_config))
                            (start example_config)))
                    "trainer" "num_envs")
           (2 ^ 1026) = true.
Proof.
  split; [reflexivity|]. split; [reflexivity|].
  split; [vm_compute; reflexivity|].
  split; [vm_compute; reflexivity|].
  split; vm_compute; reflexivity.
Qed.

(** * Further properties *)

(** ** The search, whatever the probe *)

Section SearchMore.

Context {St : Type}.
Variable func : Z -> M St unit.

Lemma attempt_extends c s tr ok s' tr' :
  0 <= c -> attempt func c s tr = (ok, s', tr') ->
  exists extra, tr' = tr ++ extra /\ Forall (fun cb => 0 <= fst cb) extra.
Proof.
  intros Hc E. rewrite (attempt_trace func _ _ _ _ _ _ E).
  exists [(c, ok)]. split; [reflexivity|]. constructor; [exact Hc|constructor].
Qed.

Lemma extends_trans (tr tr1 tr2 : calls) :
  (exists extra, tr1 = tr ++ extra /\ Forall (fun cb => 0 <= fst cb) extra) ->
  (exists extra, tr2 = tr1 ++ extra /\ Forall (fun cb => 0 <= fst cb) extra) ->
  exists extra, tr2 = tr ++ extra /\ Forall (fun cb => 0 <= fst cb) extra.
Proof.
  intros (e1 & -> & H1) (e2 & -> & H2). exists (e1 ++ e2).
  split; [symmetry; apply app_assoc|]. apply Forall_app. auto.
Qed.

Lemma extends_refl (tr : calls) :
  exists extra, tr = tr ++ extra /\ Forall (fun cb => 0 <= fst cb) extra.
Proof. exists []. split; [symmetry; apply app_nil_r|constructor]. Qed.

Lemma lower_extends fuel : forall l s tr ok l' s' tr',
  0 <= l -> lower func fuel l s tr = Some (ok, l', s', tr') ->
  0 <= l' /\
  exists extra, tr' = tr ++ extra /\ Forall (fun cb => 0 <= fst cb) extra.
Proof.
  induction fuel as [|fuel IH]; intros l s tr ok l' s' tr' Hl; simpl;
    destruct (Z.gtb_spec l 0) as [Hpos|Hle]; try discriminate.
  - intros [= _ <- _ <-]. split; [exact Hl|apply extends_refl].
  - assert (0 <= l / 2) as Hhalf by (Z.div_mod_to_equations; lia).
    destruct (attempt func (l / 2) s tr) as [[ok1 s1] tr1] eqn:E.
    pose proof (attempt_extends _ _ _ _ _ _ Hhalf E) as Hext.
    destruct ok1.
    + intros [= _ <- _ <-]. split; [exact Hhalf|exact Hext].
    + intros H. destruct (IH _ _ _ _ _ _ _ Hhalf H) as (Hl' & Hext').
      split; [exact Hl'|]. eapply extends_trans; [exact Hext|exact Hext'].
  - intros [= _ <- _ <-]. split; [exact Hl|apply extends_refl].
Qed.

Lemma raise_high_extends fuel : forall l s tr b,
  0 <= l -> raise_high func fuel l s tr = Some b ->
  0 <= low b <= high b /\
  exists extra,
    trace b = tr ++ extra /\ Forall (fun cb => 0 <= fst cb) extra.
Proof.
  induction fuel as [|fuel IH]; intros l s tr b Hl; simpl; [discriminate|].
  destruct (attempt func (2 * l) s tr) as [[ok1 s1] tr1] eqn:E.
  assert (0 <= 2 * l) as Hdouble by lia.
  pose proof (attempt_extends _ _ _ _ _ _ Hdouble E) as Hext.
  destruct ok1.
  - intros H. destruct (IH _ _ _ _ Hdouble H) as (Hb & Hext').
    split; [exact Hb|]. eapply extends_trans; [exact Hext|exact Hext'].
  - intros [= <-]. simpl. split; [lia|exact Hext].
Qed.

Lemma bisect_step_extends (b : @bracket St) :
  0 <= low b <= high b ->
  0 <= low (bisect_step func b) <= high (bisect_step func b) /\
  exists extra,
    trace (bisect_step func b) = trace b ++ extra /\
    Forall (fun cb => 0 <= fst cb) extra.
Proof.
  intros Hb.
  assert (low b <= (low b + high b) / 2 <= high b) as Hmid
    by (Z.div_mod_to_equations; lia).
  destruct (bisect_step_cases func b) as (ok & s' & _ & ->).
  split; [destruct ok; simpl; lia|].
  exists [((low b + high b) / 2, ok)]. split; [reflexivity|].
  constructor; [simpl; lia|constructor].
Qed.

Lemma bisect_extends margin fuel : forall b b',
  0 <= low b <= high b -> bisect func fuel margin b = Some b' ->
  0 <= low b' <= high b' /\ high b' - low b' <= margin /\
  exists extra,
    trace b' = trace b ++ extra /\ Forall (fun cb => 0 <= fst cb) extra.
Proof.
  induction fuel as [|fuel IH]; intros b b' Hb; simpl;
    destruct (Z.gtb_spec (high b - low b) margin) as [Hgt|Hle];
    try discriminate.
  - intros [= <-]. repeat split; try lia. apply extends_refl.
  - intros H. destruct (bisect_step_extends b Hb) as (Hb1 & Hext).
    destruct (IH _ _ Hb1 H) as (Hb' & Hgap & Hext').
    repeat split; try lia. eapply extends_trans; [exact Hext|exact Hext'].
  - intros [= <-]. repeat split; try lia. apply extends_refl.
Qed.

Lemma bisect_refuted margin fuel : forall (b b' : @bracket St),
  refuted b -> bisect func fuel margin b = Some b' -> refuted b'.
Proof.
  induction fuel as [|fuel IH]; intros b b' Hr; simpl;
    destruct (high b - low b >? margin); try discriminate.
  - intros [= <-]. exact Hr.
  - intros H. eapply IH; [|exact H]. apply bisect_step_refuted, Hr.
  - intros [= <-]. exact Hr.
Qed.

Lemma raise_high_refuted fuel : forall l s tr b,
  raise_high func fuel l s tr = Some b -> refuted b.
Proof.
  induction fuel as [|fuel IH]; intros l s tr b; simpl; [discriminate|].
  destruct (attempt func (2 * l) s tr) as [[ok1 s1] tr1] eqn:E.
  pose proof (attempt_trace func _ _ _ _ _ _ E) as ->.
  destruct ok1.
  - apply IH.
  - intros [= <-]. unfold refuted. simpl. apply in_or_app. right. left.
    reflexivity.
Qed.

(** What [widen] hands back, from a floor that has succeeded. *)
Lemma widen_result fuel margin l s tr o tr' :
  0 <= l -> In (l, true) tr ->
  widen func fuel margin l s tr = Some (o, tr') ->
  exists v h,
    o = Returns (Some v) (final o) /\
    0 <= v <= h /\ h - v <= margin /\
    In (v, true) tr' /\ In (h, false) tr' /\
    exists extra, tr' = tr ++ extra /\ Forall (fun cb => 0 <= fst cb) extra.
Proof.
  intros Hl Hin. unfold widen, refine.
  destruct (raise_high func fuel l s tr) as [b|] eqn:E; [|discriminate].
  destruct (bisect func fuel margin b) as [b'|] eqn:E'; [|discriminate].
  intros [= <- <-].
  destruct (raise_high_extends _ _ _ _ _ Hl E) as (Hb & Hext).
  destruct (bisect_extends _ _ _ _ Hb E') as (Hb' & Hgap & Hext').
  exists (low b'), (high b'). simpl. repeat split; try lia.
  - eapply bisect_verified; [|exact E'].
    eapply raise_high_verified; [exact Hin|exact E].
  - eapply bisect_refuted; [|exact E'].
    eapply raise_high_refuted, E.
  - eapply extends_trans; [exact Hext|exact Hext'].
Qed.

(** The halving loop, when it gives up: it has got to 0, and every call it
    made has failed. *)
Lemma lower_gives_up fuel : forall l s tr l' s' tr',
  0 <= l -> lower func fuel l s tr = Some (false, l', s', tr') ->
  l' = 0 /\
  (Forall (fun cb => snd cb = false) tr ->
   Forall (fun cb => snd cb = false) tr') /\
  (forall x, In x tr -> In x tr') /\
  (0 < l -> In (0, false) tr').
Proof.
  induction fuel as [|fuel IH]; intros l s tr l' s' tr' Hl; simpl;
    destruct (Z.gtb_spec l 0) as [Hpos|Hle]; try discriminate.
  - intros [= <- _ <-]. repeat split; auto; lia.
  - assert (0 <= l / 2) as Hhalf by (Z.div_mod_to_equations; lia).
    destruct (attempt func (l / 2) s tr) as [[ok1 s1] tr1] eqn:E.
    pose proof (attempt_trace func _ _ _ _ _ _ E) as ->.
    destruct ok1; [discriminate|].
    intros H. destruct (IH _ _ _ _ _ _ Hhalf H) as (-> & Hall & Hin & Hzero).
    split; [reflexivity|]. split; [|split].
    + intros Htr. apply Hall, Forall_app. split; [exact Htr|].
      constructor; [reflexivity|constructor].
    + intros x Hx. apply Hin, in_or_app. left. exact Hx.
    + intros _. destruct (Z.eq_dec (l / 2) 0) as [Hz|Hnz].
      * apply Hin, in_or_app. right. left. rewrite Hz. reflexivity.
      * apply Hzero. lia.
  - intros [= <- _ <-]. repeat split; auto; lia.
Qed.

(** The ways through the function once the assertions have passed. *)
Lemma best_param_search_cases fuel lo margin s o tr :
  0 < lo -> 0 < margin ->
  best_param_search func fuel lo margin s = Some (o, tr) ->
  exists ok s1,
    attempt func lo s [] = (ok, s1, [(lo, ok)]) /\
    ((ok = true /\ widen func fuel margin lo s1 [(lo, true)] = Some (o, tr)) \/
     (ok = false /\
      exists l' s2 tr2,
        lower func fuel lo s1 [(lo, false)] = Some (true, l', s2, tr2) /\
        widen func fuel margin l' s2 tr2 = Some (o, tr)) \/
     (ok = false /\
      exists l' s2,
        lower func fuel lo s1 [(lo, false)] = Some (false, l', s2, tr) /\
        o = Returns None s2)).
Proof.
  intros Hlo Hm. unfold best_param_search.
  destruct (Z.gtb_spec lo 0) as [_|?]; [|lia].
  destruct (Z.gtb_spec margin 0) as [_|?]; [|lia]. simpl.
  destruct (attempt func lo s []) as [[ok s1] tr1] eqn:E.
  pose proof (attempt_trace func _ _ _ _ _ _ E) as ->. simpl.
  destruct ok.
  - intros Hw. exists true, s1. split; [reflexivity|]. left. auto.
  - destruct (lower func fuel lo s1 [(lo, false)])
      as [[[[ok2 l'] s2] tr2]|] eqn:E'; [|discriminate].
    destruct ok2.
    + intros Hw. exists false, s1. split; [reflexivity|].
      right. left. split; [reflexivity|]. eauto.
    + intros [= <- <-]. exists false, s1. split; [reflexivity|].
      right. right. split; [reflexivity|]. eauto.
Qed.

Lemma bad_arguments_raise fuel lo margin s :
  lo <= 0 \/ margin <= 0 ->
  best_param_search func fuel lo margin s = Some (Raises AssertionError s, []).
Proof.
  intros Hbad. unfold best_param_search.
  destruct (Z.gtb_spec lo 0) as [Hlo|Hlo]; [|reflexivity].
  destruct (Z.gtb_spec margin 0) as [Hm|Hm]; [lia|reflexivity].
Qed.

Lemma raise_needs_bad_arguments fuel lo margin s e s' tr :
  best_param_search func fuel lo margin s = Some (Raises e s', tr) ->
  (lo <= 0 \/ margin <= 0) /\ e = AssertionError.
Proof.
  intros H.
  destruct (Z_lt_le_dec 0 lo) as [Hlo|Hlo];
    [destruct (Z_lt_le_dec 0 margin) as [Hm|Hm]|].
  - destruct (best_param_search_cases _ _ _ _ _ _ Hlo Hm H)
      as (ok & s1 & _ & [(_ & Hw)|[(_ & l' & s2 & tr2 & Hl & Hw)|(_ & l' & s2 & _ & Ho)]]).
    + apply widen_preserves with (P := fun _ => True) in Hw; auto.
      destruct Hw as (_ & v & Hv). discriminate.
    + apply widen_preserves with (P := fun _ => True) in Hw; auto.
      destruct Hw as (_ & v & Hv). discriminate.
    + discriminate.
  - rewrite bad_arguments_raise in H by auto. injection H as <- _ _. auto.
  - rewrite bad_arguments_raise in H by auto. injection H as <- _ _. auto.
Qed.




(** A value the search returns is not negative, has succeeded, and has a
    candidate that failed at most [margin] above it. *)
Theorem search_value_has_failed_neighbour fuel lo margin s s' v tr :
  0 < lo -> 0 < margin ->
  best_param_search func fuel lo margin s = Some (Returns (Some v) s', tr) ->
  0 <= v /\ In (v, true) tr /\
  exists h, v <= h /\ h - v <= margin /\ In (h, false) tr.
Proof.
  intros Hlo Hm H. assert (0 <= lo) as Hlo' by lia.
  assert (exists l s2 tr2, 0 <= l /\ In (l, true) tr2 /\
            widen func fuel margin l s2 tr2 = Some (Returns (Some v) s', tr))
    as (l & s2 & tr2 & Hl & Hin & Hw).
  { destruct (best_param_search_cases _ _ _ _ _ _ Hlo Hm H)
      as (ok & s1 & _ & [(_ & Hw)|[(_ & l' & s2 & tr2 & Hl & Hw)|(_ & l' & s2 & _ & Ho)]]).
    - exists lo, s1, [(lo, true)]. repeat split; [lia|left; reflexivity|exact Hw].
    - exists l', s2, tr2. repeat split; [|eapply lower_verified, Hl|exact Hw].
      eapply lower_extends; [exact Hlo'|exact Hl].
    - discriminate. }
  destruct (widen_result _ _ _ _ _ _ _ Hl Hin Hw)
    as (v' & h & Ho & Hvh & Hgap & Hv & Hh & _).
  injection Ho as ->. repeat split; try lia; [exact Hv|].
  exists h. repeat split; try lia. exact Hh.
Qed.

End SearchMore.

(** ** The search under a probe that never succeeds *)

Lemma log2_half l : 2 <= l -> Z.log2 (l / 2) = Z.log2 l - 1.
Proof.
  intros Hl.
  rewrite <- (Z.pow_1_r 2) at 1.
  rewrite <- Z.shiftr_div_pow2 by lia.
  rewrite Z.log2_shiftr by lia.
  assert (1 <= Z.log2 l) by (change 1 with (Z.log2 2); apply Z.log2_le_mono; lia).
  lia.
Qed.

Section Hopeless.

Context {St : Type}.
Variable func : Z -> M St unit.
Hypothesis Hno : hopeless func.

Lemma lower_hopeless_length : forall fuel l s tr,
  0 < l -> (Z.to_nat l <= fuel)%nat ->
  exists s' tr',
    lower func fuel l s tr = Some (false, 0, s', tr') /\
    length tr' = (length tr + Z.to_nat (Z.log2 l) + 1)%nat.
Proof.
  induction fuel as [|fuel IH]; intros l s tr Hl Hfuel; [lia|].
  rewrite lower_S. destruct (Z.gtb_spec l 0) as [_|?]; [|lia].
  assert (0 <= l / 2 < l) as Hhalf by (Z.div_mod_to_equations; lia).
  destruct (attempt_hopeless func (l / 2) s tr Hno (proj1 Hhalf)) as (s1 & ->).
  destruct (Z.eq_dec l 1) as [->|Hne].
  - change (1 / 2) with 0. rewrite lower_nonpositive by lia.
    eexists _, _. split; [reflexivity|].
    rewrite length_app. simpl. lia.
  - assert (2 <= l) as Hl2 by lia.
    destruct (IH (l / 2) s1 (tr ++ [(l / 2, false)])) as (s' & tr' & -> & Hlen).
    { Z.div_mod_to_equations; lia. }
    { lia. }
    exists s', tr'. split; [reflexivity|].
    rewrite Hlen, length_app, log2_half by exact Hl2. simpl.
    assert (1 <= Z.log2 l)
      by (change 1 with (Z.log2 2); apply Z.log2_le_mono; lia).
    lia.
Qed.


End Hopeless.

(** ** The search under a probe with a boundary, on the states it keeps *)

Section ThresholdOn.

Context {St : Type}.
Variable func : Z -> M St unit.
Variable P : St -> Prop.
Variable T : Z.

(** On the states of [P], which the probe keeps, and for the candidates
    from 0 on, the probe returns exactly up to [T]. *)
Hypothesis Hkeep : forall c s, P s -> P (final (func c s)).
Hypothesis Hthr : forall c s, 0 <= c -> P s -> returns (func c s) = (c <=? T).

Lemma attempt_on c s tr :
  0 <= c -> P s ->
  exists s', attempt func c s tr = (c <=? T, s', tr ++ [(c, c <=? T)]) /\ P s'.
Proof.
  intros Hc HP. unfold attempt.
  pose proof (Hthr c s Hc HP) as Hret. pose proof (Hkeep c s HP) as HP'.
  destruct (func c s) as [u s'|e s']; simpl in *; rewrite <- Hret; eauto.
Qed.

Lemma lower_on : 1 <= T -> forall fuel l s tr,
  T < l -> (Z.to_nat l <= fuel)%nat -> P s ->
  exists l' s' tr',
    lower func fuel l s tr = Some (true, l', s', tr') /\
    1 <= l' <= T /\ P s'.
Proof.
  intros HT. induction fuel as [|fuel IH]; intros l s tr Hl Hfuel HP; [lia|].
  rewrite lower_S. destruct (Z.gtb_spec l 0) as [_|?]; [|lia].
  assert (1 <= l / 2 < l) as Hhalf by (Z.div_mod_to_equations; lia).
  destruct (attempt_on (l / 2) s tr ltac:(lia) HP) as (s1 & -> & HP1).
  destruct (Z.leb_spec (l / 2) T) as [Hok|Hfail].
  - eexists _, _, _. split; [reflexivity|]. split; [lia|exact HP1].
  - apply IH; [lia|lia|exact HP1].
Qed.

Lemma raise_high_on : forall fuel l s tr,
  1 <= l <= T -> (Z.to_nat (T - l) < fuel)%nat -> P s ->
  exists b, raise_high func fuel l s tr = Some b /\
            1 <= low b <= T /\ T < high b /\ high b = 2 * low b /\ P (st b).
Proof.
  induction fuel as [|fuel IH]; intros l s tr Hl Hfuel HP; [lia|].
  simpl. destruct (attempt_on (2 * l) s tr ltac:(lia) HP) as (s1 & -> & HP1).
  destruct (Z.leb_spec (2 * l) T) as [Hok|Hfail].
  - apply IH; [lia|lia|exact HP1].
  - eexists. split; [reflexivity|]. simpl. repeat split; lia || exact HP1.
Qed.

Lemma bisect_on margin : 0 < margin -> forall fuel (b : @bracket St),
  0 <= low b -> low b <= T < high b -> P (st b) ->
  (Z.to_nat (high b - low b) <= fuel)%nat ->
  exists b', bisect func fuel margin b = Some b' /\
             low b' <= T < high b' /\ high b' - low b' <= margin /\ P (st b').
Proof.
  intros Hm. induction fuel as [|fuel IH]; intros b Hlow Hb HP Hfuel; simpl;
    destruct (Z.gtb_spec (high b - low b) margin) as [Hgt|Hle].
  - lia.
  - exists b. repeat split; lia || exact HP.
  - assert (low b < (low b + high b) / 2 < high b) as Hmid
      by (Z.div_mod_to_equations; lia).
    unfold bisect_step.
    destruct (attempt_on ((low b + high b) / 2) (st b) (trace b)
                ltac:(lia) HP) as (s1 & -> & HP1).
    destruct (Z.leb_spec ((low b + high b) / 2) T) as [Hok|Hfail].
    + apply IH; simpl; lia || exact HP1.
    + apply IH; simpl; lia || exact HP1.
  - exists b. repeat split; lia || exact HP.
Qed.

Lemma widen_on fuel margin l s tr :
  0 < margin -> 1 <= l <= T -> (Z.to_nat T < fuel)%nat -> P s ->
  exists v s' tr',
    widen func fuel margin l s tr = Some (Returns (Some v) s', tr') /\
    T - margin < v <= T /\ P s'.
Proof.
  intros Hm Hl Hfuel HP. unfold widen, refine.
  destruct (raise_high_on fuel l s tr Hl ltac:(lia) HP)
    as (b & -> & Hlow & Hhigh & Hdouble & HPb).
  destruct (bisect_on margin Hm fuel b ltac:(lia) ltac:(lia) HPb ltac:(lia))
    as (b' & -> & Hb' & Hgap & HPb').
  exists (low b'), (st b'), (trace b'). split; [reflexivity|].
  split; [lia|exact HPb'].
Qed.


End ThresholdOn.

(** ** The same, for a probe known on the candidates up to a bound only *)

Section ThresholdWithin.

Context {St : Type}.
Variable func : Z -> M St unit.
Variable P : St -> Prop.
Variables T B : Z.

(** On the states of [P], which the probe keeps, and for the candidates
    from 0 to [B], the probe returns exactly up to [T]. *)
Hypothesis Hkeep : forall c s, P s -> P (final (func c s)).
Hypothesis Hthr :
  forall c s, 0 <= c <= B -> P s -> returns (func c s) = (c <=? T).

Lemma attempt_within c s tr :
  0 <= c <= B -> P s ->
  exists s', attempt func c s tr = (c <=? T, s', tr ++ [(c, c <=? T)]) /\ P s'.
Proof.
  intros Hc HP. unfold attempt.
  pose proof (Hthr c s Hc HP) as Hret. pose proof (Hkeep c s HP) as HP'.
  destruct (func c s) as [u s'|e s']; simpl in *; rewrite <- Hret; eauto.
Qed.

Lemma lower_within : 1 <= T -> forall fuel l s tr,
  T < l -> l <= B -> (Z.to_nat l <= fuel)%nat -> P s ->
  exists l' s' tr',
    lower func fuel l s tr = Some (true, l', s', tr') /\
    1 <= l' <= T /\ P s'.
Proof.
  intros HT. induction fuel as [|fuel IH]; intros l s tr Hl HB Hfuel HP; [lia|].
  rewrite lower_S. destruct (Z.gtb_spec l 0) as [_|?]; [|lia].
  assert (1 <= l / 2 < l) as Hhalf by (Z.div_mod_to_equations; lia).
  assert (0 <= l / 2 <= B) as Hc by lia.
  destruct (attempt_within (l / 2) s tr Hc HP) as (s1 & -> & HP1).
  destruct (Z.leb_spec (l / 2) T) as [Hok|Hfail].
  - eexists _, _, _. split; [reflexivity|]. split; [lia|exact HP1].
  - apply IH; [lia|lia|lia|exact HP1].
Qed.

Lemma raise_high_within : 2 * T <= B -> forall fuel l s tr,
  1 <= l <= T -> (Z.to_nat (T - l) < fuel)%nat -> P s ->
  exists b, raise_high func fuel l s tr = Some b /\
            1 <= low b <= T /\ T < high b /\ high b = 2 * low b /\ P (st b).
Proof.
  intros HB. induction fuel as [|fuel IH]; intros l s tr Hl Hfuel HP; [lia|].
  simpl. assert (0 <= 2 * l <= B) as Hc by lia.
  destruct (attempt_within (2 * l) s tr Hc HP) as (s1 & -> & HP1).
  destruct (Z.leb_spec (2 * l) T) as [Hok|Hfail].
  - apply IH; [lia|lia|exact HP1].
  - eexists. split; [reflexivity|]. simpl. repeat split; lia || exact HP1.
Qed.

Lemma bisect_within margin : 0 < margin -> forall fuel (b : @bracket St),
  0 <= low b -> high b <= B -> low b <= T < high b -> P (st b) ->
  (Z.to_nat (high b - low b) <= fuel)%nat ->
  exists b', bisect func fuel margin b = Some b' /\
             low b' <= T < high b' /\ high b' - low b' <= margin /\ P (st b').
Proof.
  intros Hm. induction fuel as [|fuel IH]; intros b Hlow Hhigh Hb HP Hfuel;
    simpl; destruct (Z.gtb_spec (high b - low b) margin) as [Hgt|Hle].
  - lia.
  - exists b. repeat split; lia || exact HP.
  - assert (low b < (low b + high b) / 2 < high b) as Hmid
      by (Z.div_mod_to_equations; lia).
    assert (0 <= (low b + high b) / 2 <= B) as Hc by lia.
    unfold bisect_step.
    destruct (attempt_within ((low b + high b) / 2) (st b) (trace b) Hc HP)
      as (s1 & -> & HP1).
    destruct (Z.leb_spec ((low b + high b) / 2) T) as [Hok|Hfail].
    + apply IH; simpl; lia || exact HP1.
    + apply IH; simpl; lia || exact HP1.
  - exists b. repeat split; lia || exact HP.
Qed.

Lemma widen_within fuel margin l s tr :
  2 * T <= B -> 0 < margin -> 1 <= l <= T -> (Z.to_nat T < fuel)%nat -> P s ->
  exists v s' tr',
    widen func fuel margin l s tr = Some (Returns (Some v) s', tr') /\
    T - margin < v <= T /\ P s'.
Proof.
  intros HB Hm Hl Hfuel HP. unfold widen, refine.
  destruct (raise_high_within HB fuel l s tr Hl ltac:(lia) HP)
    as (b & -> & Hlow & Hhigh & Hdouble & HPb).
  destruct (bisect_within margin Hm fuel b ltac:(lia) ltac:(lia) ltac:(lia)
              HPb ltac:(lia))
    as (b' & -> & Hb' & Hgap & HPb').
  exists (low b'), (st b'), (trace b'). split; [reflexivity|].
  split; [lia|exact HPb'].
Qed.

(** The boundary is found when the probe is known to have it on the
    candidates up to [low] and up to [2 * T], the only ones the search
    calls. *)
Lemma search_finds_boundary_within fuel lo margin s :
  1 <= T -> 0 < lo -> lo <= B -> 2 * T <= B -> 0 < margin ->
  (Z.to_nat (lo + T) < fuel)%nat -> P s ->
  exists v s' tr,
    best_param_search func fuel lo margin s = Some (Returns (Some v) s', tr) /\
    T - margin < v <= T /\ (margin = 1 -> v = T) /\ P s'.
Proof.
  intros HT Hlo HloB HB Hm Hfuel HP. unfold best_param_search.
  destruct (Z.gtb_spec lo 0) as [_|?]; [|lia].
  destruct (Z.gtb_spec margin 0) as [_|?]; [|lia]. simpl.
  assert (0 <= lo <= B) as Hc by lia.
  destruct (attempt_within lo s [] Hc HP) as (s1 & -> & HP1).
  destruct (Z.leb_spec lo T) as [Hok|Hfail].
  - destruct (widen_within fuel margin lo s1 ([] ++ [(lo, true)])
                HB Hm ltac:(lia) ltac:(lia) HP1)
      as (v & s' & tr' & -> & Hv & HP').
    exists v, s', tr'. repeat split; lia || exact HP'.
  - destruct (lower_within HT fuel lo s1 ([] ++ [(lo, false)])
                Hfail HloB ltac:(lia) HP1) as (l' & s2 & tr2 & -> & Hl' & HP2).
    destruct (widen_within fuel margin l' s2 tr2
                HB Hm Hl' ltac:(lia) HP2) as (v & s' & tr' & -> & Hv & HP').
    exists v, s', tr'. repeat split; lia || exact HP'.
Qed.

End ThresholdWithin.

(** ** The probe closures and the tuning run, further *)

Section AutoScalerMore.

Context {World : Type}.
Variable trainer : config -> bool -> World -> ending * World.
Variable num_iters : Z.

Abbreviation state := (@state World).

(** [launch_process] raises exactly what the target has raised in the
    child, and returns when the child has sent [None] or nothing; either way
    it leaves the configuration of the parent as it is and records one
    launch, on the configuration it was given. *)
Theorem launch_process_raises_what_the_child_raised
    (func : config -> bool -> World -> ending * World)
    (args : config * bool) (s : state) :
  (forall e,
     fst (func (fst args) (snd args) (world s)) = Threw e <->
     exists s', launch_process func args s = Raises e s') /\
  cfg (final (launch_process func args s)) = cfg s /\
  world (final (launch_process func args s))
    = snd (func (fst args) (snd args) (world s)) /\
  events (final (launch_process func args s))
    = events s ++ [EvLaunch (fst args)].
Proof.
  unfold launch_process.
  destruct (func (fst args) (snd args) (world s)) as [t w].
  destruct t as [|e0|]; simpl; repeat split; try discriminate.
  - intros (s' & H). discriminate.
  - intros [= ->]. eauto.
  - intros (s' & [= -> _]). reflexivity.
  - intros (s' & H). discriminate.
Qed.

(** The closure of stage B, step by step, up to the launch. *)
Lemma stage_b_probe_steps
    (c : Z) (s : state) (tr en : gmap string val) (n b p len q : val) :
  cfg s !! "trainer" = Some tr ->
  tr !! "num_envs" = Some n ->
  py_mul (VInt c) n = inr b ->
  py_mul (VInt num_iters) b = inr p ->
  cfg s !! "env" = Some en ->
  en !! "episode_length" = Some len ->
  py_truediv p len = inr q ->
  set_batch_size_per_env_and_train trainer num_iters c s
    = launch_process trainer (written_by_stage_b b q tr (cfg s), false)
        (State (written_by_stage_b b q tr (cfg s)) (world s)
               (events s ++ [EvProbe StageB c])).
Proof.
  intros Htr Hn Hb Hp Hen Hlen Hq.
  unfold set_batch_size_per_env_and_train, set_num_episodes, bind, note,
    the_config, written_by_stage_b.
  erewrite getitem_found; [|exact Htr|exact Hn].
  rewrite Hb. simpl.
  erewrite setitem_found by exact Htr. simpl.
  erewrite getitem_found;
    [|apply lookup_insert_eq|apply lookup_insert_eq].
  rewrite Hp. simpl.
  erewrite getitem_found;
    [|simpl; rewrite lookup_insert_ne by discriminate; exact Hen|exact Hlen].
  rewrite Hq. simpl.
  erewrite setitem_found by apply lookup_insert_eq. simpl.
  rewrite insert_insert_eq. reflexivity.
Qed.

Lemma written_by_stage_b_lookups b q tr (conf : config) :
  lookup2 (written_by_stage_b b q tr conf) "trainer" "num_envs"
    = tr !! "num_envs" /\
  lookup2 (written_by_stage_b b q tr conf) "trainer" "train_batch_size"
    = Some b /\
  lookup2 (written_by_stage_b b q tr conf) "trainer" "num_episodes"
    = Some q /\
  (forall k, k <> "trainer" -> written_by_stage_b b q tr conf !! k = conf !! k).
Proof.
  unfold lookup2, written_by_stage_b. rewrite lookup_insert_eq.
  split; [|split; [|split]].
  - rewrite lookup_insert_ne by discriminate.
    apply lookup_insert_ne. discriminate.
  - rewrite lookup_insert_ne by discriminate. apply lookup_insert_eq.
  - apply lookup_insert_eq.
  - intros k Hk. apply lookup_insert_ne. congruence.
Qed.

(** On a configuration with its [trainer] section, [trainer.num_envs] and
    [env.episode_length], and when the products and the division are defined,
    a call of the probe closure of stage B with candidate [c] writes
    [c * num_envs] to [trainer.train_batch_size] and
    [num_iters * train_batch_size / env.episode_length] to
    [trainer.num_episodes], leaves [trainer.num_envs] and the other sections
    as they are, and then hands the run over to [launch_process] on the
    configuration so written. *)
Theorem stage_b_probe_writes_then_launches
    (c : Z) (s : state) (tr en : gmap string val) (n b p len q : val) :
  cfg s !! "trainer" = Some tr ->
  tr !! "num_envs" = Some n ->
  py_mul (VInt c) n = inr b ->
  py_mul (VInt num_iters) b = inr p ->
  cfg s !! "env" = Some en ->
  en !! "episode_length" = Some len ->
  py_truediv p len = inr q ->
  exists c' : config,
    lookup2 c' "trainer" "num_envs" = Some n /\
    lookup2 c' "trainer" "train_batch_size" = Some b /\
    lookup2 c' "trainer" "num_episodes" = Some q /\
    (forall k, k <> "trainer" -> c' !! k = cfg s !! k) /\
    set_batch_size_per_env_and_train trainer num_iters c s
      = launch_process trainer (c', false)
          (State c' (world s) (events s ++ [EvProbe StageB c])).
Proof.
  intros Htr Hn Hb Hp Hen Hlen Hq.
  exists (written_by_stage_b b q tr (cfg s)).
  destruct (written_by_stage_b_lookups b q tr (cfg s)) as (H1 & H2 & H3 & H4).
  rewrite Hn in H1. repeat split; try assumption.
  apply (stage_b_probe_steps c s tr en n b p len q); assumption.
Qed.

Lemma framed_set_batch_size_per_env_and_train c :
  framed (set_batch_size_per_env_and_train trainer num_iters c).
Proof.
  unfold set_batch_size_per_env_and_train, set_num_episodes.
  repeat (apply framed_bind; [|intros ?]);
    auto using framed_note, framed_getitem, framed_lift,
      framed_setitem_trainer, framed_the_config, framed_launch_process.
Qed.

Lemma frame_ready len (s s' : state) :
  frame s s' -> ready len s -> ready len s'.
Proof.
  intros [Htr Hother] [Hs Hlen]. split; [auto|].
  unfold lookup2 in *. rewrite Hother by discriminate. exact Hlen.
Qed.

(** *** What the closures do to [trainer.num_envs] *)

Lemma keeps_bind {A B} (m : M state A) (k : A -> M state B) :
  keeps_num_envs m -> (forall a, keeps_num_envs (k a)) ->
  keeps_num_envs (bind m k).
Proof.
  intros Hm Hk s. unfold bind. specialize (Hm s).
  destruct (m s) as [a s1|e s1]; simpl in Hm; [|exact Hm].
  rewrite Hk. exact Hm.
Qed.

Lemma keeps_note ev : keeps_num_envs (World:=World) (note ev).
Proof. intros s. reflexivity. Qed.

Lemma keeps_getitem k1 k2 : keeps_num_envs (World:=World) (getitem k1 k2).
Proof.
  intros s. unfold getitem.
  destruct (cfg s !! k1) as [d|]; [destruct (d !! k2)|]; reflexivity.
Qed.

Lemma keeps_lift {A} (r : exn + A) : keeps_num_envs (World:=World) (lift r).
Proof. intros s. destruct r; reflexivity. Qed.

Lemma keeps_the_config : keeps_num_envs (World:=World) the_config.
Proof. intros s. reflexivity. Qed.

Lemma keeps_launch_process func args :
  keeps_num_envs (World:=World) (launch_process func args).
Proof.
  intros s. unfold launch_process.
  destruct (func (fst args) (snd args) (world s)) as [t w].
  destruct (ProcessWrapper.exception (ProcessWrapper.run t) None); reflexivity.
Qed.

Lemma keeps_setitem_trainer k2 v :
  k2 <> "num_envs" -> keeps_num_envs (World:=World) (setitem "trainer" k2 v).
Proof.
  intros Hk s. unfold setitem.
  destruct (cfg s !! "trainer") as [d|] eqn:E; [|reflexivity].
  unfold lookup2. simpl. rewrite lookup_insert_eq, E.
  apply lookup_insert_ne. exact Hk.
Qed.

(** The closure of stage B never writes [trainer.num_envs]. *)
Lemma keeps_set_batch_size_per_env_and_train c :
  keeps_num_envs (set_batch_size_per_env_and_train trainer num_iters c).
Proof.
  unfold set_batch_size_per_env_and_train, set_num_episodes.
  repeat first
    [ apply keeps_bind; [|intros ?]
    | apply keeps_note | apply keeps_getitem | apply keeps_lift
    | apply keeps_the_config | apply keeps_launch_process
    | apply keeps_setitem_trainer; discriminate ].
Qed.

(** A call of either probe closure, whether it returns or raises, leaves
    every section of the configuration other than [trainer] as it is. *)
Theorem probe_closures_write_trainer_only (c : Z) (s : state) (k : string) :
  k <> "trainer" ->
  cfg (final (set_num_envs_and_train trainer num_iters c s)) !! k
    = cfg s !! k /\
  cfg (final (set_batch_size_per_env_and_train trainer num_iters c s)) !! k
    = cfg s !! k.
Proof.
  intros Hk. split.
  - apply (framed_set_num_envs_and_train trainer num_iters c s), Hk.
  - apply (framed_set_batch_size_per_env_and_train c s), Hk.
Qed.

(** *** With a trainer that has a boundary in each parameter *)

Section Bounded.

Variables T1 T2 : Z.
Hypothesis Hbounded : bounded trainer T1 T2.
Hypothesis HT1 : 1 <= T1.
Hypothesis HT2 : 1 <= T2.

(** The closure of stage A, where its division is defined, returns
    exactly up to [T1]. *)
Lemma stage_a_probe_bounded len c (s : state) :
  ready len s -> divides len (num_iters * c) -> 0 <= c ->
  returns (set_num_envs_and_train trainer num_iters c s) = (c <=? T1).
Proof.
  intros [[tr Htr] Hlen] (q & Hq) Hc.
  unfold lookup2 in Hlen.
  destruct (cfg s !! "env") as [en|] eqn:Hen; [|discriminate].
  rewrite (stage_a_probe_steps trainer num_iters c s tr en len q Htr Hen Hlen Hq).
  destruct (written_by_stage_a_lookups c q tr (cfg s)) as (H1 & H2 & _).
  pose proof (Hbounded _ (world s) c c H1 H2) as Hb.
  unfold launch_process. simpl.
  destruct (trainer (written_by_stage_a c q tr (cfg s)) false (world s))
    as [t w].
  destruct t as [|e|]; simpl in *.
  - symmetry. apply Z.leb_le. lia.
  - symmetry. apply Z.leb_gt. nia.
  - contradiction.
Qed.

(** The closure of stage B, with [num_envs] at [T1] and where its
    division is defined, returns exactly up to [T2]. *)
Lemma stage_b_probe_bounded len c (s : state) :
  ready len s -> lookup2 (cfg s) "trainer" "num_envs" = Some (VInt T1) ->
  divides len (num_iters * (c * T1)) ->
  returns (set_batch_size_per_env_and_train trainer num_iters c s)
    = (c <=? T2).
Proof.
  intros [[tr Htr] Hlen] Hn (q & Hq).
  unfold lookup2 in Hlen, Hn. rewrite Htr in Hn.
  destruct (cfg s !! "env") as [en|] eqn:Hen; [|discriminate].
  rewrite (stage_b_probe_steps c s tr en (VInt T1) (VInt (c * T1))
             (VInt (num_iters * (c * T1))) len q
             Htr Hn eq_refl eq_refl Hen Hlen Hq).
  destruct (written_by_stage_b_lookups (VInt (c * T1)) q tr (cfg s))
    as (H1 & H2 & _).
  rewrite Hn in H1.
  pose proof (Hbounded _ (world s) T1 (c * T1) H1 H2) as Hb.
  unfold launch_process. simpl.
  destruct (trainer (written_by_stage_b (VInt (c * T1)) q tr (cfg s)) false
              (world s)) as [t w].
  destruct t as [|e|]; simpl in *.
  - symmetry. apply Z.leb_le. nia.
  - symmetry. apply Z.leb_gt. nia.
  - contradiction.
Qed.

Lemma save_initial_found (s : state) ne uw :
  lookup2 (cfg s) "trainer" "num_episodes" = Some ne ->
  lookup2 (cfg s) "saving" "use_wandb" = Some uw ->
  exists sv,
    cfg s !! "saving" = Some sv /\
    save_initial s
      = Returns (ne, uw)
          (State (<["saving" := <["use_wandb" := VBool false]> sv]> (cfg s))
                 (world s) (events s)).
Proof.
  unfold lookup2, save_initial, bind, getitem, setitem, ret.
  destruct (cfg s !! "trainer") as [t|]; [|discriminate]. intros ->.
  destruct (cfg s !! "saving") as [sv|] eqn:Es; [|discriminate]. intros ->.
  simpl. rewrite Es. eauto.
Qed.

(** The search of stage A, from a ready state, when the division is
    defined for the candidates up to [n] and up to [2 * T1]: it returns
    [T1], in a state that differs inside [trainer] only. *)
Lemma stage_a_search_bounded len fuel n (s1 : state) :
  ready len s1 -> 0 < n -> (Z.to_nat (n + T1) < fuel)%nat ->
  (forall c, 0 <= c <= Z.max n (2 * T1) -> divides len (num_iters * c)) ->
  exists s2,
    search fuel n 1 (set_num_envs_and_train trainer num_iters) s1
      = Ends (Returns (Some T1) s2) /\
    frame s1 s2.
Proof.
  intros Hready Hn Hfuel Hdiv.
  destruct (search_finds_boundary_within
              (set_num_envs_and_train trainer num_iters)
              (frame s1) T1 (Z.max n (2 * T1)))
    with (fuel := fuel) (lo := n) (margin := 1) (s := s1)
    as (v & s2 & tr & E & _ & Hv & Hframe); try lia.
  - intros c s Hs. eapply frame_trans; [exact Hs|].
    apply framed_set_num_envs_and_train.
  - intros c s Hc Hs. apply (stage_a_probe_bounded len); [|auto|lia].
    eapply frame_ready; [exact Hs|exact Hready].
  - apply frame_refl.
  - exists s2. unfold search. rewrite E, (Hv eq_refl). auto.
Qed.

(** The search of stage B, with [num_envs] at [T1], when the division is
    defined for the candidates up to [2 * T2]: it returns [T2]. *)
Lemma stage_b_search_bounded len fuel (s2 : state) :
  ready len s2 -> lookup2 (cfg s2) "trainer" "num_envs" = Some (VInt T1) ->
  (Z.to_nat (1 + T2) < fuel)%nat ->
  (forall c, 0 <= c <= 2 * T2 -> divides len (num_iters * (c * T1))) ->
  exists s3,
    search fuel 1 1 (set_batch_size_per_env_and_train trainer num_iters) s2
      = Ends (Returns (Some T2) s3) /\
    frame s2 s3 /\
    lookup2 (cfg s3) "trainer" "num_envs" = Some (VInt T1).
Proof.
  intros Hready Hnum Hfuel Hdiv.
  destruct (search_finds_boundary_within
              (set_batch_size_per_env_and_train trainer num_iters)
              (fun s => frame s2 s /\
                        lookup2 (cfg s) "trainer" "num_envs" = Some (VInt T1))
              T2 (2 * T2))
    with (fuel := fuel) (lo := 1) (margin := 1) (s := s2)
    as (v & s3 & tr & E & _ & Hv & Hframe & Hnum3); try lia.
  - intros c s [Hs Hn]. split.
    + eapply frame_trans; [exact Hs|].
      apply framed_set_batch_size_per_env_and_train.
    + rewrite keeps_set_batch_size_per_env_and_train. exact Hn.
  - intros c s Hc [Hs Hn]. apply (stage_b_probe_bounded len); [|exact Hn|auto].
    eapply frame_ready; [exact Hs|exact Hready].
  - split; [apply frame_refl|exact Hnum].
  - exists s3. unfold search. rewrite E, (Hv eq_refl). auto.
Qed.


End Bounded.

(** *** Which exceptions get out of the run *)

Lemma raises_own_bind {A B} (m : M state A) (k : A -> M state B) :
  raises_own m -> (forall a, raises_own (k a)) -> raises_own (bind m k).
Proof.
  intros Hm Hk s e s'. unfold bind.
  destruct (m s) as [a s1|e1 s1] eqn:E.
  - apply Hk.
  - intros [= <- <-]. eapply Hm, E.
Qed.

Lemma raises_own_getitem k1 k2 : raises_own (St:=state) (getitem k1 k2).
Proof.
  intros s e s'. unfold getitem.
  destruct (cfg s !! k1) as [d|]; [destruct (d !! k2)|];
    intros [= <- _] || discriminate; exact I.
Qed.

Lemma raises_own_setitem k1 k2 v : raises_own (St:=state) (setitem k1 k2 v).
Proof.
  intros s e s'. unfold setitem.
  destruct (cfg s !! k1) as [d|]; intros [= <- _] || discriminate; exact I.
Qed.

Lemma raises_own_ret {A} (a : A) : raises_own (St:=state) (ret a).
Proof. intros s e s'. discriminate. Qed.

(** The product of two search results: an [int], or a [TypeError]. *)
Lemma raises_own_product r1 r2 :
  raises_own (St:=state) (lift (py_mul (val_of_result r1) (val_of_result r2))).
Proof.
  intros s e s'. destruct r1, r2; simpl; intros [= <- _] || discriminate; exact I.
Qed.

Lemma ends_own_total {A} (m : M state A) : raises_own m -> ends_own (total m).
Proof. intros Hm s e s' [= H]. eapply Hm, H. Qed.

Lemma ends_own_bindR {A B} (m : R state A) (k : A -> R state B) :
  ends_own m -> (forall a, ends_own (k a)) -> ends_own (bindR m k).
Proof.
  intros Hm Hk s e s'. unfold bindR.
  destruct (m s) as [[a s1|e1 s1]| |] eqn:E; try discriminate.
  - apply Hk.
  - intros [= <- <-]. eapply Hm, E.
Qed.

Lemma ends_own_search fuel lo margin (func : Z -> M state unit) :
  ends_own (search fuel lo margin func).
Proof.
  intros s e s'. unfold search.
  destruct (best_param_search func fuel lo margin s) as [[o tr]|] eqn:E;
    [|discriminate].
  intros [= ->]. apply raise_needs_bad_arguments in E as (_ & ->). exact I.
Qed.

Lemma ends_own_search_from fuel low margin (func : Z -> M state unit) :
  ends_own (search_from fuel low margin func).
Proof.
  destruct low; simpl; try (intros s e s'; discriminate).
  - intros s e s' [= <- _]. exact I.
  - apply ends_own_search.
Qed.

Lemma raises_own_save_initial : raises_own (St:=state) save_initial.
Proof.
  unfold save_initial.
  repeat first
    [ apply raises_own_bind; [|intros ?]
    | apply raises_own_getitem | apply raises_own_setitem
    | apply raises_own_ret ].
Qed.

Lemma raises_own_put_back saved : raises_own (St:=state) (put_back saved).
Proof.
  unfold put_back.
  repeat first
    [ apply raises_own_bind; [|intros ?] | apply raises_own_setitem ].
Qed.

Lemma ends_own_stage_a fuel : ends_own (stage_a trainer num_iters fuel).
Proof.
  unfold stage_a.
  repeat first
    [ apply ends_own_bindR; [|intros ?]
    | apply ends_own_search_from
    | apply ends_own_total
    | apply raises_own_getitem | apply raises_own_setitem ].
Qed.

(** Stage A leaves a search result in [trainer.num_envs]. *)
Lemma stage_a_returns fuel (s s2 : state) :
  stage_a trainer num_iters fuel s = Ends (Returns tt s2) ->
  exists r, lookup2 (cfg s2) "trainer" "num_envs" = Some (val_of_result r).
Proof.
  unfold stage_a, bindR, total.
  destruct (getitem "trainer" "num_envs" s) as [v s0|e s0]; [|discriminate].
  destruct (search_from fuel v 1 (set_num_envs_and_train trainer num_iters) s0)
    as [[r s1|e s1]| |]; try discriminate.
  unfold setitem.
  destruct (cfg s1 !! "trainer") as [d|]; [|discriminate].
  intros [= <-]. exists r. unfold lookup2. simpl.
  rewrite !lookup_insert_eq. reflexivity.
Qed.

(** Stage B, entered with a search result in [trainer.num_envs]: the
    product at its end is one of two search results. *)
Lemma stage_b_own fuel (s s' : state) r e :
  lookup2 (cfg s) "trainer" "num_envs" = Some (val_of_result r) ->
  stage_b trainer num_iters fuel s = Ends (Raises e s') ->
  own_error e.
Proof.
  intros Hnum. unfold stage_b, bindR, total.
  destruct (search fuel 1 1 (set_batch_size_per_env_and_train trainer num_iters) s)
    as [[r' s3|e3 s3]| |] eqn:ES; try discriminate.
  - assert (lookup2 (cfg s3) "trainer" "num_envs" = Some (val_of_result r))
      as Hnum3.
    { unfold search in ES.
      destruct (best_param_search _ fuel 1 1 s) as [[o tr]|] eqn:E;
        [|discriminate].
      injection ES as ->.
      apply (best_param_search_preserves _
               (fun s0 : state => lookup2 (cfg s0) "trainer" "num_envs"
                                  = Some (val_of_result r))) in E;
        [exact E| |exact Hnum].
      intros c s0 H0. rewrite keeps_set_batch_size_per_env_and_train.
      exact H0. }
    rewrite (getitem_lookup2 _ _ _ _ Hnum3).
    destruct (lift (py_mul (val_of_result r') (val_of_result r)) s3)
      as [b s4|e4 s4] eqn:EP.
    + intros [= H]. eapply raises_own_setitem, H.
    + intros [= <- _]. eapply raises_own_product, EP.
  - intros [= <- _]. eapply ends_own_search, ES.
Qed.


(** *** Launches and wandb *)

Lemma calm_refl (s : state) : calm s s.
Proof.
  intros H. split; [exact H|]. exists []. split; [symmetry; apply app_nil_r|].
  constructor.
Qed.

Lemma launches_app (l1 l2 : list event) :
  launches (l1 ++ l2) = launches l1 ++ launches l2.
Proof.
  induction l1 as [|[g c|c] l1 IH]; simpl; [reflexivity|exact IH|].
  rewrite IH. reflexivity.
Qed.

Lemma calm_trans (s1 s2 s3 : state) : calm s1 s2 -> calm s2 s3 -> calm s1 s3.
Proof.
  intros H12 H23 H1.
  destruct (H12 H1) as (H2 & e1 & E1 & F1).
  destruct (H23 H2) as (H3 & e2 & E2 & F2).
  split; [exact H3|]. exists (e1 ++ e2). split.
  - rewrite E2, E1. symmetry. apply app_assoc.
  - rewrite launches_app. apply Forall_app. auto.
Qed.

Lemma calmly_bind {A B} (m : M state A) (k : A -> M state B) :
  calmly m -> (forall a, calmly (k a)) -> calmly (bind m k).
Proof.
  intros Hm Hk s. unfold bind. specialize (Hm s).
  destruct (m s) as [a s1|e s1]; simpl in Hm; [|exact Hm].
  eapply calm_trans; [exact Hm|apply Hk].
Qed.

Lemma calmly_note g c : calmly (World:=World) (note (EvProbe g c)).
Proof.
  intros s H. split; [exact H|]. exists [EvProbe g c].
  split; [reflexivity|constructor].
Qed.

Lemma calmly_getitem k1 k2 : calmly (World:=World) (getitem k1 k2).
Proof.
  intros s. unfold getitem.
  destruct (cfg s !! k1) as [d|]; [destruct (d !! k2)|]; apply calm_refl.
Qed.

Lemma calmly_lift {A} (r : exn + A) : calmly (World:=World) (lift r).
Proof. intros s. destruct r; apply calm_refl. Qed.

Lemma calmly_setitem_trainer k2 v :
  calmly (World:=World) (setitem "trainer" k2 v).
Proof.
  intros s. unfold setitem.
  destruct (cfg s !! "trainer") as [d|]; [|apply calm_refl].
  intros H. split.
  - unfold wandb_off, lookup2 in *. simpl.
    rewrite lookup_insert_ne by discriminate. exact H.
  - exists []. split; [symmetry; apply app_nil_r|constructor].
Qed.

(** The launch at the end of both closures, on the configuration as it
    stands. *)
Lemma calmly_launch_current :
  calmly (bind the_config (fun c => launch_process trainer (c, false))).
Proof.
  intros s H. unfold bind, the_config, launch_process. simpl.
  destruct (trainer (cfg s) false (world s)) as [t w].
  destruct (ProcessWrapper.exception (ProcessWrapper.run t) None); simpl;
    (split; [exact H|]); exists [EvLaunch (cfg s)];
    (split; [reflexivity|]); constructor; auto.
Qed.

Lemma calmly_set_num_envs_and_train c :
  calmly (set_num_envs_and_train trainer num_iters c).
Proof.
  unfold set_num_envs_and_train, set_num_episodes.
  repeat first
    [ apply calmly_launch_current
    | apply calmly_bind; [|intros ?]
    | apply calmly_note | apply calmly_getitem | apply calmly_lift
    | apply calmly_setitem_trainer ].
Qed.

Lemma calmly_set_batch_size_per_env_and_train c :
  calmly (set_batch_size_per_env_and_train trainer num_iters c).
Proof.
  unfold set_batch_size_per_env_and_train, set_num_episodes.
  repeat first
    [ apply calmly_launch_current
    | apply calmly_bind; [|intros ?]
    | apply calmly_note | apply calmly_getitem | apply calmly_lift
    | apply calmly_setitem_trainer ].
Qed.

Lemma ends_calmly_total {A} (m : M state A) : calmly m -> ends_calmly (total m).
Proof. intros Hm s o [= <-]. apply Hm. Qed.

Lemma ends_calmly_bindR {A B} (m : R state A) (k : A -> R state B) :
  ends_calmly m -> (forall a, ends_calmly (k a)) -> ends_calmly (bindR m k).
Proof.
  intros Hm Hk s o. unfold bindR.
  destruct (m s) as [[a s1|e1 s1]| |] eqn:E; try discriminate.
  - intros H. eapply calm_trans; [apply (Hm _ _ E)|apply (Hk _ _ _ H)].
  - intros [= <-]. apply (Hm _ _ E).
Qed.

Lemma ends_calmly_search fuel lo margin (func : Z -> M state unit) :
  (forall c, calmly (func c)) -> ends_calmly (search fuel lo margin func).
Proof.
  intros Hfunc s o. unfold search.
  destruct (best_param_search func fuel lo margin s) as [[o' tr]|] eqn:E;
    [|discriminate].
  intros [= ->].
  apply (best_param_search_preserves func (calm s)) in E;
    [exact E| |apply calm_refl].
  intros c s1 H1. eapply calm_trans; [exact H1|apply Hfunc].
Qed.

Lemma ends_calmly_search_from fuel low margin (func : Z -> M state unit) :
  (forall c, calmly (func c)) -> ends_calmly (search_from fuel low margin func).
Proof.
  intros Hfunc. destruct low; simpl; try (intros s o; discriminate).
  - intros s o [= <-]. apply calm_refl.
  - apply ends_calmly_search, Hfunc.
Qed.

Lemma ends_calmly_stage_a fuel : ends_calmly (stage_a trainer num_iters fuel).
Proof.
  unfold stage_a.
  apply ends_calmly_bindR; [apply ends_calmly_total, calmly_getitem|intros v].
  apply ends_calmly_bindR;
    [apply ends_calmly_search_from, calmly_set_num_envs_and_train|intros r].
  apply ends_calmly_total, calmly_setitem_trainer.
Qed.

Lemma ends_calmly_stage_b fuel : ends_calmly (stage_b trainer num_iters fuel).
Proof.
  unfold stage_b.
  apply ends_calmly_bindR;
    [apply ends_calmly_search, calmly_set_batch_size_per_env_and_train|intros r].
  apply ends_calmly_bindR; [apply ends_calmly_total, calmly_getitem|intros v].
  apply ends_calmly_bindR; [apply ends_calmly_total, calmly_lift|intros b].
  apply ends_calmly_total, calmly_setitem_trainer.
Qed.

Lemma save_initial_events (s : state) :
  events (final (save_initial s)) = events s.
Proof.
  unfold save_initial, bind, getitem, setitem, ret.
  destruct (cfg s !! "trainer") as [t|]; [|reflexivity].
  destruct (t !! "num_episodes"); [|reflexivity].
  destruct (cfg s !! "saving") as [sv|] eqn:Es; [|reflexivity].
  destruct (sv !! "use_wandb"); [|reflexivity].
  simpl. rewrite Es. reflexivity.
Qed.

Lemma put_back_events saved (s : state) :
  events (final (put_back saved s)) = events s.
Proof.
  unfold put_back, bind, setitem.
  destruct (cfg s !! "trainer") as [t|]; [|reflexivity]. simpl.
  destruct (<["trainer":=<["num_episodes":=saved.1]> t]> (cfg s) !! "saving");
    reflexivity.
Qed.

(** However the tuning run ends, every process it has launched was
    started on a configuration with [saving.use_wandb] at [False]. *)
Theorem auto_scaling_launches_with_wandb_off fuel (s : state) o :
  auto_scaling trainer num_iters fuel s = Ends o ->
  exists extra,
    events (final o) = events s ++ extra /\
    Forall wandb_off (launches extra).
Proof.
  unfold auto_scaling, bindR, total.
  pose proof (save_initial_events s) as Hev0.
  destruct (save_initial s) as [saved s1|e s1] eqn:Hsave; simpl in Hev0.
  - destruct (save_initial_returns _ _ _ Hsave) as (_ & _ & Hoff & _).
    destruct (stage_a trainer num_iters fuel s1) as [[[] s2|e s2]| |] eqn:EA;
      try discriminate.
    + destruct (ends_calmly_stage_a _ _ _ EA Hoff) as (Hoff2 & x1 & E1 & F1).
      simpl in *.
      destruct (stage_b trainer num_iters fuel s2) as [[[] s3|e s3]| |] eqn:EB;
        try discriminate.
      * destruct (ends_calmly_stage_b _ _ _ EB Hoff2) as (_ & x2 & E2 & F2).
        simpl in *. intros [= <-]. exists (x1 ++ x2). split.
        -- rewrite put_back_events, E2, E1, Hev0. symmetry. apply app_assoc.
        -- rewrite launches_app. apply Forall_app. auto.
      * destruct (ends_calmly_stage_b _ _ _ EB Hoff2) as (_ & x2 & E2 & F2).
        simpl in *. intros [= <-]. exists (x1 ++ x2). split.
        -- simpl. rewrite E2, E1, Hev0. symmetry. apply app_assoc.
        -- rewrite launches_app. apply Forall_app. auto.
    + destruct (ends_calmly_stage_a _ _ _ EA Hoff) as (_ & x1 & E1 & F1).
      simpl in *. intros [= <-]. exists x1. simpl. rewrite E1, Hev0. auto.
  - intros [= <-]. exists []. simpl. rewrite Hev0, app_nil_r. split; constructor.
Qed.

(** *** A seed the search refuses *)

(** With [trainer.num_envs] at [None], or at an [int] that is not
    positive, the run fails on the first assertion of the search of stage A,
    with a [TypeError] or an [AssertionError]: no probe is called, and
    [saving.use_wandb] is left at [False]. *)
Theorem auto_scaling_refuses_bad_seed fuel (s : state) ne uw v e :
  lookup2 (cfg s) "trainer" "num_episodes" = Some ne ->
  lookup2 (cfg s) "saving" "use_wandb" = Some uw ->
  lookup2 (cfg s) "trainer" "num_envs" = Some v ->
  (v = VNone /\ e = TypeError) \/
  (exists n, v = VInt n /\ n <= 0 /\ e = AssertionError) ->
  exists s',
    auto_scaling trainer num_iters fuel s = Ends (Raises e s') /\
    events s' = events s /\ world s' = world s /\
    wandb_off (cfg s').
Proof.
  intros Hne Huw Hv Hbad.
  destruct (save_initial_found s ne uw Hne Huw) as (sv & Hsv & Hsave).
  set (s1 := State (<["saving" := <["use_wandb" := VBool false]> sv]> (cfg s))
                   (world s) (events s)) in *.
  assert (lookup2 (cfg s1) "trainer" "num_envs" = Some v) as Hv1.
  { unfold lookup2 in *. simpl. rewrite lookup_insert_ne by discriminate.
    exact Hv. }
  exists s1. split; [|repeat split].
  - unfold auto_scaling, bindR, total. rewrite Hsave.
    unfold stage_a, bindR, total. rewrite (getitem_lookup2 _ _ _ _ Hv1).
    destruct Hbad as [(-> & ->)|(n & -> & Hn & ->)]; simpl; [reflexivity|].
    unfold search. rewrite bad_arguments_raise by auto. reflexivity.
  - unfold wandb_off, lookup2. simpl. rewrite !lookup_insert_eq. reflexivity.
Qed.

End AutoScalerMore.

(** ** The further properties on the examples *)




Lemma search_value_has_failed_neighbour_witness :
  0 <= 37 /\
  In (37, true)
     [(1, true); (2, true); (4, true); (8, true); (16, true);
      (32, true); (64, false); (48, false); (40, false); (36, true);
      (38, false); (37, true)] /\
  exists h, 37 <= h /\ h - 37 <= 1 /\
    In (h, false)
       [(1, true); (2, true); (4, true); (8, true); (16, true);
        (32, true); (64, false); (48, false); (40, false); (36, true);
        (38, false); (37, true)].
Proof.
  apply (search_value_has_failed_neighbour (threshold_probe 37) 20 1 1 tt tt).
  - lia.
  - lia.
  - reflexivity.
Defined.



Lemma launch_process_raises_what_the_child_raised_witness :
  exists s',
    launch_process failing_trainer (example_config, false)
      (start example_config)
    = Raises (TrainingError "CUDA out of memory") s'.
Proof.
  apply (proj1 (launch_process_raises_what_the_child_raised failing_trainer
                  (example_config, false) (start example_config))).
  reflexivity.
Defined.

Lemma stage_b_probe_writes_then_launches_witness :
  exists c' : config,
    lookup2 c' "trainer" "num_envs" = Some (VInt 8) /\
    lookup2 c' "trainer" "train_batch_size" = Some (VInt 24) /\
    lookup2 c' "trainer" "num_episodes" = Some (VFloat (24 # 5)) /\
    (forall k, k <> "trainer" -> c' !! k = cfg (start example_config) !! k) /\
    set_batch_size_per_env_and_train (capped_trainer 50 10) 2 3
        (start example_config)
      = launch_process (capped_trainer 50 10) (c', false)
          (State c' (world (start example_config))
                 (events (start example_config) ++ [EvProbe StageB 3])).
Proof.
  apply (stage_b_probe_writes_then_launches (capped_trainer 50 10) 2 3
           (start example_config)
           {[ "num_envs" := VInt 8; "train_batch_size" := VInt 8;
              "num_episodes" := VInt 100 ]}
           {[ "episode_length" := VInt 10 ]}
           (VInt 8) (VInt 24) (VInt 48) (VInt 10) (VFloat (24 # 5))).
  - reflexivity.
  - reflexivity.
  - reflexivity.
  - reflexivity.
  - reflexivity.
  - reflexivity.
  - reflexivity.
Defined.

Lemma capped_trainer_bounded T1 T2 : bounded (capped_trainer T1 T2) T1 T2.
Proof.
  intros conf w n b Hn Hb. unfold capped_trainer. rewrite Hn, Hb.
  destruct (Z.leb_spec n T1); destruct (Z.leb_spec b (T2 * n)); simpl; lia.
Qed.

Lemma example_ready : ready (VInt 10) (start example_config).
Proof. split; [eexists|]; reflexivity. Qed.

(** The quotient of two [int]s is defined when the divisor is not zero and
    the dividend is small. *)
Lemma small_quotient_defined x y :
  y <> 0 -> Z.abs x < 2 ^ 64 -> divides (VInt y) x.
Proof.
  intros Hy Hx. unfold divides, py_truediv. simpl.
  destruct (Z.eqb_spec y 0) as [|_]; [contradiction|].
  assert (2 ^ 64 <= float_overflow) as Hbig by (vm_compute; discriminate).
  destruct (Z.leb_spec (float_overflow * Z.abs y) (Z.abs x)) as [Hle|_];
    [|eauto].
  exfalso. revert Hbig Hle. generalize float_overflow. intros big Hbig Hle.
  nia.
Qed.


Lemma failing_run_raises :
  failing_run
    = Ends (Raises TypeError (state_of failing_run (start example_config))).
Proof. apply run_raises_eta. vm_compute. reflexivity. Qed.


Lemma auto_scaling_launches_with_wandb_off_witness :
  exists extra,
    events (final (Returns tt (state_of capped_run (start example_config))))
      = events (start example_config) ++ extra /\
    Forall wandb_off (launches extra).
Proof.
  apply (auto_scaling_launches_with_wandb_off (capped_trainer 50 10) 2 40
           (start example_config)).
  exact capped_run_returns.
Defined.

Lemma auto_scaling_refuses_bad_seed_witness :
  exists s',
    auto_scaling (capped_trainer 50 10) 2 40 (start config_with_zero_envs)
      = Ends (Raises AssertionError s') /\
    events s' = events (start config_with_zero_envs) /\
    world s' = world (start config_with_zero_envs) /\
    wandb_off (cfg s').
Proof.
  apply (auto_scaling_refuses_bad_seed (capped_trainer 50 10) 2 40
           (start config_with_zero_envs) (VInt 100) (VBool true) (VInt 0)).
  - reflexivity.
  - reflexivity.
  - reflexivity.
  - right. exists 0. repeat split. lia.
Defined.

Lemma probe_closures_write_trainer_only_witness :
  cfg (final (set_num_envs_and_train failing_trainer 2 16
                (start example_config))) !! "saving"
    = cfg (start example_config) !! "saving" /\
  cfg (final (set_batch_size_per_env_and_train failing_trainer 2 16
                (start example_config))) !! "saving"
    = cfg (start example_config) !! "saving".
Proof.
  apply (probe_closures_write_trainer_only failing_trainer 2 16
           (start example_config) "saving").
  discriminate.
Defined.
